(** * Ownership-scoped notes and images: the request handlers of [app.py]

    A shallow embedding of the Flask handlers of [src/app.py] and proofs
    about who may delete what, what a deletion removes, and what the
    handlers answer.

    Layout:
    - [Py]: the Python string and list primitives the handlers use;
    - [Database]: the record store behind [from database import ...];
    - [App]: the request state, the handler monad and the handlers;
    - [Inv]: the invariants of the data model the properties rest on;
    - [Demo]: concrete stores and requests;
    - the properties, one section per operation, and their concrete runs. *)

From Stdlib Require Import String Ascii List Bool Arith Lia.
Import ListNotations.
Local Open Scope list_scope.
Local Open Scope string_scope.

(** ** Python primitives *)

Module Py.

(** Strings are byte strings (UTF-8 for text outside ASCII).  [upper] and
    [lower] are the ASCII part of [str.upper] and [str.lower]: they act on
    the ASCII letters and leave every other byte alone.  The handlers call
    [str.upper] through [str_upper] of [Libs] below; [upper] stands in for
    it in the concrete runs, whose ids are ASCII. *)
Definition upper_char (c : ascii) : ascii :=
  let n := nat_of_ascii c in
  if ((97 <=? n) && (n <=? 122))%nat then ascii_of_nat (n - 32) else c.

Definition lower_char (c : ascii) : ascii :=
  let n := nat_of_ascii c in
  if ((65 <=? n) && (n <=? 90))%nat then ascii_of_nat (n + 32) else c.

Fixpoint upper (s : string) : string :=
  match s with
  | EmptyString => EmptyString
  | String c r => String (upper_char c) (upper r)
  end.

Fixpoint lower (s : string) : string :=
  match s with
  | EmptyString => EmptyString
  | String c r => String (lower_char c) (lower r)
  end.

(** [c in s] for a one-character string [c]. *)
Fixpoint contains (c : ascii) (s : string) : bool :=
  match s with
  | EmptyString => false
  | String d r => Ascii.eqb d c || contains c r
  end.

(** [x in l] for a list of strings. *)
Definition str_in (x : string) (l : list string) : bool :=
  existsb (String.eqb x) l.

(** [s.split(sep, 1)]: the text before the first separator, and the text
    after it when there is one.  The result of Python's call is a list of
    one or two items; item [0] is the first component. *)
Fixpoint split1 (sep : ascii) (s : string) : string * option string :=
  match s with
  | EmptyString => (EmptyString, None)
  | String c r =>
      if Ascii.eqb c sep then (EmptyString, Some r)
      else let (h, t) := split1 sep r in (String c h, t)
  end.

(** [s.rsplit(sep, 1)]: the list Python returns, one item when [sep] does
    not occur and two (before and after the last [sep]) when it does. *)
Fixpoint rsplit1 (sep : ascii) (s : string) : list string :=
  match s with
  | EmptyString => [EmptyString]
  | String c r =>
      match rsplit1 sep r with
      | [t] => if Ascii.eqb c sep then [EmptyString; t] else [String c t]
      | h :: rest => String c h :: rest
      | [] => []
      end
  end.

(** [zip(range(1, len(l) + 1), l, ...)] style numbering from [k]. *)
Fixpoint enumerate_from {A : Type} (k : nat) (l : list A) : list (nat * A) :=
  match l with
  | [] => []
  | x :: r => (k, x) :: enumerate_from (S k) r
  end.

End Py.

(** ** Library functions the handlers call

    [hashlib.sha1(..).hexdigest()], werkzeug's [secure_filename], Python's
    Unicode-aware [str.upper()] and the credential digest of the user store
    are library code; the handlers are parametric in them. *)

Class Libs := {
  str_upper : string -> string;
  sha1_hexdigest : string -> string;
  secure_filename : string -> string;
  pw_digest : string -> string
}.

(** ** The record store ([from database import ...]) *)

Module Database.

(** Modelled from the spec: the rows of the absent [database] module's
    tables, after the data model: "User: identity, credential hash",
    "Note: id, owner user id, text content, creation timestamp", "Image:
    unique id, owner user id, original filename, upload timestamp". *)
Record user_row := { user_id : string; user_cred : string }.
Record note_row :=
  { note_id : string; note_user : string; note_time : string; note_text : string }.
Record image_row :=
  { img_uid : string; img_owner : string; img_name : string; img_time : string }.

(** Modelled from the spec: the stores of the absent [database] module,
    three tables, each a list of rows in insertion order. *)
Record t := {
  users : list user_row;
  notes : list note_row;
  images : list image_row
}.

(** Modelled from the spec: the answer "ownerId | NotFound" of the absent
    owner lookups.  [NotFound] is a value of its own: it is no user id, and
    it is not the [None] that [session.get] gives for a request without
    identity. *)
Inductive lookup := Found (owner : string) | NotFound.

Section Operations.
Context `{Libs}.

(** Modelled from the spec: [list_users] of the absent [database] module,
    "listUserIds() -> set of string"; the handlers take [len] of it and zip
    it, so it is the sequence of stored ids. *)
Definition list_users (d : t) : list string := map user_id (users d).

(** Modelled from the spec: [verify] of the absent [database] module,
    "verify(id, password) -> bool" against the stored credential hash. *)
Definition verify (id pw : string) (d : t) : bool :=
  match find (fun r => String.eqb (user_id r) id) (users d) with
  | Some r => String.eqb (user_cred r) (pw_digest pw)
  | None => false
  end.

(** Modelled from the spec: [add_user] of the absent [database] module,
    "create with given id/password" for a "User: identity (unique string
    id, case-normalized upper-case), credential hash". *)
Definition add_user (id pw : string) (d : t) : t :=
  {| users := (users d ++ [{| user_id := str_upper id; user_cred := pw_digest pw |}])%list;
     notes := notes d;
     images := images d |}.

(** Modelled from the spec: [write_note_into_db] of the absent [database]
    module, "insertNote(ownerId, text) -> noteId"; the id and the creation
    timestamp the store gives the note are inputs [nid] and [now]. *)
Definition write_note_into_db (nid now : string) (owner text : string) (d : t) : t :=
  {| users := users d;
     notes := (notes d ++ [{| note_id := nid; note_user := owner;
                              note_time := now; note_text := text |}])%list;
     images := images d |}.

(** Modelled from the spec: [read_note_from_db] of the absent [database]
    module, "listNotesFor(ownerId) -> sequence of (noteId, text,
    timestamp)". *)
Definition read_note_from_db (owner : string) (d : t) : list (string * string * string) :=
  map (fun r => (note_id r, note_text r, note_time r))
      (filter (fun r => String.eqb (note_user r) owner) (notes d)).

(** Modelled from the spec: [match_user_id_with_note_id] of the absent
    [database] module, "ownerOfNote(noteId) -> ownerId | NotFound". *)
Definition match_user_id_with_note_id (nid : string) (d : t) : lookup :=
  match find (fun r => String.eqb (note_id r) nid) (notes d) with
  | Some r => Found (note_user r)
  | None => NotFound
  end.

(** Modelled from the spec: [delete_note_from_db] of the absent
    [database] module, "deleteNote(noteId)". *)
Definition delete_note_from_db (nid : string) (d : t) : t :=
  {| users := users d;
     notes := filter (fun r => negb (String.eqb (note_id r) nid)) (notes d);
     images := images d |}.

(** Modelled from the spec: [image_upload_record] of the absent
    [database] module, "insertImage(imageId, ownerId, filename,
    timestamp)". *)
Definition image_upload_record (uid owner name now : string) (d : t) : t :=
  {| users := users d;
     notes := notes d;
     images := (images d ++ [{| img_uid := uid; img_owner := owner;
                                img_name := name; img_time := now |}])%list |}.

(** Modelled from the spec: [list_images_for_user] of the absent
    [database] module, "listImagesFor(ownerId) -> sequence of (imageId,
    filename, timestamp)". *)
Definition list_images_for_user (owner : string) (d : t) : list (string * string * string) :=
  map (fun r => (img_uid r, img_name r, img_time r))
      (filter (fun r => String.eqb (img_owner r) owner) (images d)).

(** Modelled from the spec: [match_user_id_with_image_uid] of the absent
    [database] module, "ownerOfImage(imageId) -> ownerId | NotFound". *)
Definition match_user_id_with_image_uid (uid : string) (d : t) : lookup :=
  match find (fun r => String.eqb (img_uid r) uid) (images d) with
  | Some r => Found (img_owner r)
  | None => NotFound
  end.

(** Modelled from the spec: [delete_image_from_db] of the absent
    [database] module, "deleteImageMeta(imageId)". *)
Definition delete_image_from_db (uid : string) (d : t) : t :=
  {| users := users d;
     notes := notes d;
     images := filter (fun r => negb (String.eqb (img_uid r) uid)) (images d) |}.

(** Modelled from the spec: [delete_user_from_db] of the absent
    [database] module, "delete the user's record", with the cascade the
    spec asks for: "deleting a user removes every Note and Image metadata
    row it owned". *)
Definition delete_user_from_db (id : string) (d : t) : t :=
  {| users := filter (fun r => negb (String.eqb (user_id r) id)) (users d);
     notes := filter (fun r => negb (String.eqb (note_user r) id)) (notes d);
     images := filter (fun r => negb (String.eqb (img_owner r) id)) (images d) |}.

End Operations.

End Database.

(** ** The application ([app.py]) *)

Module App.

Import Database.

(** *** What a request can see and change *)

(** A file of the directory [app.config["UPLOAD_FOLDER"]]: its name in the
    directory and its bytes. *)
Record blob := { blob_name : string; blob_bytes : string }.

Inductive level := INFO | WARNING.

(** The Flask session ([current_user] and the flashed messages), the record
    store, the upload directory in [os.listdir] order, and the log. *)
Record state := {
  current_user : option string;
  flashes : list (string * string);
  db : Database.t;
  pool : list blob;
  log : list (level * string)
}.

Definition set_current_user (u : option string) (s : state) : state :=
  {| current_user := u; flashes := flashes s; db := db s; pool := pool s; log := log s |}.

Definition add_flash (msg category : string) (s : state) : state :=
  {| current_user := current_user s; flashes := (flashes s ++ [(msg, category)])%list;
     db := db s; pool := pool s; log := log s |}.

Definition set_db (d : Database.t) (s : state) : state :=
  {| current_user := current_user s; flashes := flashes s; db := d;
     pool := pool s; log := log s |}.

Definition set_pool (p : list blob) (s : state) : state :=
  {| current_user := current_user s; flashes := flashes s; db := db s;
     pool := p; log := log s |}.

Definition add_log (l : level) (msg : string) (s : state) : state :=
  {| current_user := current_user s; flashes := flashes s; db := db s;
     pool := pool s; log := (log s ++ [(l, msg)])%list |}.

(** *** How a handler ends *)

Inductive exn :=
| KeyError (key : string)
| IndexError
| AttributeError
| FileNotFoundError (name : string).

(** A handler returns a value, stops in [flask.abort(code)], or stops in an
    uncaught Python exception.  Whatever it wrote before stopping stays
    written. *)
Inductive outcome (A : Type) :=
| Ret (a : A)
| Abort (code : nat)
| Raise (e : exn).
Arguments Ret {A} a.
Arguments Abort {A} code.
Arguments Raise {A} e.

Definition M (A : Type) : Type := state -> outcome A * state.

Definition ret {A} (a : A) : M A := fun s => (Ret a, s).

Definition bind {A B} (m : M A) (k : A -> M B) : M B :=
  fun s =>
    match m s with
    | (Ret a, s') => k a s'
    | (Abort c, s') => (Abort c, s')
    | (Raise e, s') => (Raise e, s')
    end.

Definition abort {A} (code : nat) : M A := fun s => (Abort code, s).
Definition raise {A} (e : exn) : M A := fun s => (Raise e, s).
Definition gets {A} (f : state -> A) : M A := fun s => (Ret (f s), s).
Definition modify (f : state -> state) : M unit := fun s => (Ret tt, f s).

Declare Scope handler_scope.
Delimit Scope handler_scope with handler.
Notation "x <- m ;; k" := (bind m (fun x => k))
  (at level 61, m at next level, right associativity) : handler_scope.
Notation "m ;; k" := (bind m (fun _ => k))
  (at level 61, right associativity) : handler_scope.
Local Open Scope handler_scope.

Fixpoint for_each {A} (l : list A) (body : A -> M unit) : M unit :=
  match l with
  | [] => ret tt
  | x :: r => body x ;; for_each r body
  end.

(** *** Responses *)

Inductive endpoint := to_FUN_root | to_FUN_private | to_FUN_admin.

Record admin_page := {
  id_to_add_is_duplicated : bool;
  id_to_add_is_invalid : bool;
  users_table : list (nat * string * string)
}.

Inductive response :=
| Redirect (target : endpoint)
| Page_index
| Page_public
| Page_private (notes images : list (string * string * string * string))
| Page_admin (page : admin_page).

Definition redirect (target : endpoint) : M response := ret (Redirect target).

(** *** Session, logger and file system *)

(** [session.get("current_user", None)] *)
Definition session_get : M (option string) := gets current_user.

(** [session["current_user"]] *)
Definition session_item : M string :=
  u <- gets current_user ;;
  match u with
  | Some id => ret id
  | None => raise (KeyError "current_user")
  end.

Definition flash (msg category : string) : M unit := modify (add_flash msg category).

Definition logger_info (msg : string) : M unit := modify (add_log INFO msg).
Definition logger_warning (msg : string) : M unit := modify (add_log WARNING msg).

(** [os.listdir(app.config["UPLOAD_FOLDER"])] *)
Definition os_listdir : M (list string) := gets (fun s => map blob_name (pool s)).

Definition name_is (name : string) (b : blob) : bool := String.eqb (blob_name b) name.

(** [os.remove(os.path.join(app.config["UPLOAD_FOLDER"], name))] *)
Definition os_remove (name : string) : M unit :=
  p <- gets pool ;;
  if existsb (name_is name) p
  then modify (set_pool (filter (fun b => negb (name_is name b)) p))
  else raise (FileNotFoundError name).

(** [file.save(os.path.join(app.config["UPLOAD_FOLDER"], name))]: a file of
    that name is overwritten where it stands, a new one comes last. *)
Fixpoint write_file (name bytes : string) (p : list blob) : list blob :=
  match p with
  | [] => [{| blob_name := name; blob_bytes := bytes |}]
  | b :: r =>
      if name_is name b then {| blob_name := name; blob_bytes := bytes |} :: r
      else b :: write_file name bytes r
  end.

Definition file_save (name bytes : string) : M unit :=
  modify (fun s => set_pool (write_file name bytes (pool s)) s).

(** [l[0]] *)
Definition item0 {A} (l : list A) : M A :=
  match l with
  | x :: _ => ret x
  | [] => raise IndexError
  end.

(** [session.get("current_user", None) == owner] for the answer of an owner
    lookup.  A session with identity never equals [NotFound].  For a
    session without identity the comparison with [NotFound] is taken to be
    false as well; what the lookup answers for a missing row is fixed
    neither by the handlers nor by the spec, and the properties of an id
    that does not resolve are stated for sessions with identity. *)
Definition is_owner (u : option string) (owner : lookup) : bool :=
  match u, owner with
  | Some id, Found o => String.eqb id o
  | _, _ => false
  end.

(** [session.get("current_user", None) == "ADMIN"] *)
Definition is_admin (u : option string) : bool :=
  match u with
  | Some id => String.eqb id "ADMIN"
  | None => false
  end.

(** [y.split("-", 1)[0] == uid] *)
Definition has_prefix (uid : string) (y : string) : bool :=
  String.eqb (fst (Py.split1 "-" y)) uid.

(** *** The handlers *)

Section Handlers.
Context `{Libs}.

Definition db_read {A} (q : Database.t -> A) : M A := gets (fun s => q (db s)).
Definition db_write (u : Database.t -> Database.t) : M unit :=
  modify (fun s => set_db (u (db s)) s).

(** [zip(range(1, len(user_list) + 1), user_list, ["/delete_user/" + u ...])] *)
Definition user_table (user_list : list string) : list (nat * string * string) :=
  map (fun ku => (fst ku, snd ku, "/delete_user/" ++ snd ku)) (Py.enumerate_from 1 user_list).

Definition FUN_root : M response := ret Page_index.

Definition FUN_public : M response := ret Page_public.

Definition FUN_private : M response :=
  u <- session_get ;;
  match u with
  | Some id =>
      notes_list <- db_read (read_note_from_db id) ;;
      images_list <- db_read (list_images_for_user id) ;;
      ret (Page_private
             (map (fun x => (fst (fst x), snd (fst x), snd x, "/delete_note/" ++ fst (fst x)))
                  notes_list)
             (map (fun x => (fst (fst x), snd (fst x), snd x, "/delete_image/" ++ fst (fst x)))
                  images_list))
  | None => abort 401
  end.

Definition FUN_admin : M response :=
  u <- session_get ;;
  if is_admin u then
    user_list <- db_read list_users ;;
    ret (Page_admin {| id_to_add_is_duplicated := false;
                       id_to_add_is_invalid := false;
                       users_table := user_table user_list |})
  else abort 401.

(** [nid] and [now] are the id and timestamp the store gives the note;
    [text_to_write] is the form field. *)
Definition FUN_write_note (nid now : string) (text_to_write : string) : M response :=
  user <- session_item ;;
  db_write (write_note_into_db nid now user text_to_write) ;;
  redirect to_FUN_private.

Definition FUN_delete_note (note_id : string) : M response :=
  u <- session_get ;;
  owner <- db_read (match_user_id_with_note_id note_id) ;;
  (if is_owner u owner
   then db_write (delete_note_from_db note_id)
   else abort 401) ;;
  redirect to_FUN_private.

Definition ALLOWED_EXTENSIONS : list string := ["png"; "jpg"; "jpeg"; "gif"].

(** The [and] short-circuits: item [1] is read only when a dot occurs, and
    then it is there ([rsplit1_item1] below). *)
Definition allowed_file (filename : string) : bool :=
  Py.contains "." filename &&
  match nth_error (Py.rsplit1 "." filename) 1 with
  | Some ext => Py.str_in (Py.lower ext) ALLOWED_EXTENSIONS
  | None => false
  end.

(** An entry of [request.files]: the name the client sent and the bytes. *)
Record upload := { upload_filename : string; upload_bytes : string }.

(** A werkzeug [FileStorage] is true when its filename is not empty. *)
Definition file_truthy (f : upload) : bool := negb (String.eqb (upload_filename f) "").

(** [now] is [str(datetime.datetime.now())]; [files] is
    [request.files.get("file")].  The route takes POST only. *)
Definition FUN_upload_image (now : string) (files : option upload) : M response :=
  match files with
  | None =>
      flash "No file part" "danger" ;;
      redirect to_FUN_private
  | Some file =>
      if String.eqb (upload_filename file) "" then
        flash "No selected file" "danger" ;;
        redirect to_FUN_private
      else if file_truthy file && allowed_file (upload_filename file) then
        let filename := secure_filename (upload_filename file) in
        let upload_time := now in
        let image_uid := sha1_hexdigest (upload_time ++ filename) in
        file_save (image_uid ++ "-" ++ filename) (upload_bytes file) ;;
        user <- session_item ;;
        db_write (image_upload_record image_uid user filename upload_time) ;;
        redirect to_FUN_private
      else redirect to_FUN_private
  end.

(** The blob of image [uid]: the first directory entry whose name up to the
    first dash is [uid], removed. *)
Definition remove_from_pool (uid : string) : M unit :=
  names <- os_listdir ;;
  image_to_delete_from_pool <- item0 (filter (has_prefix uid) names) ;;
  os_remove image_to_delete_from_pool.

Definition FUN_delete_image (image_uid : string) : M response :=
  u <- session_get ;;
  owner <- db_read (match_user_id_with_image_uid image_uid) ;;
  (if is_owner u owner
   then db_write (delete_image_from_db image_uid) ;;
        remove_from_pool image_uid
   else abort 401) ;;
  redirect to_FUN_private.

(** [id] and [pw] are the form fields; [request.form.get("id")] is [None]
    when the field is absent, and [.upper()] of that raises.  The flush of
    the log handler and the rate limit of the route are left out. *)
Definition FUN_login (id : option string) (pw : string) : M response :=
  match id with
  | None => raise AttributeError
  | Some i =>
      let id_submitted := str_upper i in
      logger_info ("Login attempt by user: " ++ id_submitted) ;;
      user_list <- db_read list_users ;;
      verified <- db_read (verify id_submitted pw) ;;
      (if Py.str_in id_submitted user_list && verified
       then modify (set_current_user (Some id_submitted)) ;;
            logger_info ("Successful login for user: " ++ id_submitted)
       else logger_warning ("Failed login attempt for user: " ++ id_submitted)) ;;
      redirect to_FUN_root
  end.

Definition FUN_logout : M response :=
  modify (set_current_user None) ;;
  redirect to_FUN_root.

Definition FUN_delete_user (id : string) : M response :=
  u <- session_get ;;
  if is_admin u then
    if String.eqb id "ADMIN" then abort 403
    else
      images_to_remove <- db_read (fun d => map (fun x => fst (fst x)) (list_images_for_user id d)) ;;
      for_each images_to_remove remove_from_pool ;;
      db_write (delete_user_from_db id) ;;
      redirect to_FUN_admin
  else abort 401.

Definition FUN_add_user (id : option string) (pw : string) : M response :=
  u <- session_get ;;
  if is_admin u then
    match id with
    | None => raise AttributeError
    | Some i =>
        user_list <- db_read list_users ;;
        if Py.str_in (str_upper i) user_list then
          ret (Page_admin {| id_to_add_is_duplicated := true;
                             id_to_add_is_invalid := false;
                             users_table := user_table user_list |})
        else if Py.contains " " i || Py.contains "'" i then
          ret (Page_admin {| id_to_add_is_duplicated := false;
                             id_to_add_is_invalid := true;
                             users_table := user_table user_list |})
        else
          db_write (add_user i pw) ;;
          redirect to_FUN_admin
    end
  else abort 401.

End Handlers.

(** What goes back to the caller: how the handler ended, and the session.
    The session travels in the caller's cookie, the one the module
    configures with [session_cookie_secure] and [session_cookie_samesite]. *)
Definition reply {A} (m : M A) (s : state)
  : outcome A * (option string * list (string * string)) :=
  (fst (m s), (current_user (snd (m s)), flashes (snd (m s)))).

End App.

(** ** Store invariants of the data model *)

Module Inv.

Import Database App.

(** The files of the upload directory that belong to image [uid]. *)
Definition blobs_of (uid : string) (p : list blob) : list blob :=
  filter (fun b => has_prefix uid (blob_name b)) p.

(** Note ids and image ids are unique in their tables. *)
Definition unique_ids (d : Database.t) : Prop :=
  NoDup (map note_id (notes d)) /\ NoDup (map img_uid (images d)).

(** Every image row has exactly one file in the upload directory. *)
Definition one_blob_each (s : state) : Prop :=
  forall r, In r (images (db s)) -> exists b, blobs_of (img_uid r) (pool s) = [b].

(** Stored user ids are upper-case: [str.upper()] leaves them alone. *)
Definition normalized `{Libs} (d : Database.t) : Prop :=
  forall id, In id (list_users d) -> str_upper id = id.

(** Id [i] equals a stored id up to case. *)
Definition taken `{Libs} (i : string) (d : Database.t) : Prop :=
  exists e, In e (list_users d) /\ str_upper e = str_upper i.

(** The upload directory without the files of the images [uids]. *)
Definition purge (uids : list string) (p : list blob) : list blob :=
  filter (fun b => negb (existsb (fun uid => has_prefix uid (blob_name b)) uids)) p.

(** The ids the loop of [FUN_delete_user] walks over. *)
Definition images_to_remove (id : string) (d : Database.t) : list string :=
  map (fun x => fst (fst x)) (list_images_for_user id d).

(** The same request made under identity [u]. *)
Definition as_user (u : string) (s : state) : state := set_current_user (Some u) s.

End Inv.

(** ** Concrete stores and requests *)

Module Demo.

Import Database App.

(** Stand-ins for the library functions, to run the handlers on concrete
    requests: upper-casing is the ASCII one, the digest drops the dashes of
    its input. *)
Definition libs : Libs := {|
  str_upper := Py.upper;
  sha1_hexdigest := fun s =>
    "c0ffee" ++ string_of_list_ascii
                  (filter (fun c => negb (Ascii.eqb c "-")) (list_ascii_of_string s));
  secure_filename := fun s => s;
  pw_digest := fun s => "#" ++ s
|}.

Definition store : Database.t := {|
  users := [ {| user_id := "ADMIN"; user_cred := "#root" |};
             {| user_id := "ALICE"; user_cred := "#wonder" |};
             {| user_id := "BOB"; user_cred := "#builder" |} ];
  notes := [ {| note_id := "n1"; note_user := "ALICE"; note_time := "t1"; note_text := "milk" |};
             {| note_id := "n2"; note_user := "BOB"; note_time := "t2"; note_text := "nails" |} ];
  images := [ {| img_uid := "ab12"; img_owner := "ALICE"; img_name := "cat.png"; img_time := "t3" |};
              {| img_uid := "cd34"; img_owner := "ALICE"; img_name := "dog.gif"; img_time := "t4" |};
              {| img_uid := "ef56"; img_owner := "BOB"; img_name := "saw.jpg"; img_time := "t5" |} ]
|}.

Definition folder : list blob :=
  [ {| blob_name := "ef56-saw.jpg"; blob_bytes := "s" |};
    {| blob_name := "ab12-cat.png"; blob_bytes := "c" |};
    {| blob_name := "cd34-dog.gif"; blob_bytes := "d" |} ].

(** A request with session identity [u] on the stores above. *)
Definition request (u : option string) : state :=
  {| current_user := u; flashes := []; db := store; pool := folder; log := [] |}.

Definition alice : state := request (Some "ALICE").
Definition bob : state := request (Some "BOB").
Definition admin : state := request (Some "ADMIN").
Definition nobody : state := request None.

(** The same request on an upload directory [p]. *)
Definition request_on (p : list blob) (u : option string) : state :=
  {| current_user := u; flashes := []; db := store; pool := p; log := [] |}.

End Demo.

(** ** The routes ([@app.route]) and what a request may do to the store *)

Module Routes.

Import Database App.

(** A request: the route it hits together with what the handler reads from
    the URL, the form, the uploaded files and the clock. *)
Inductive request :=
| Root
| Public
| Private
| Admin
| Write_note (nid now text_to_write : string)
| Delete_note (note_id : string)
| Upload_image (now : string) (files : option upload)
| Delete_image (image_uid : string)
| Login (id : option string) (pw : string)
| Logout
| Delete_user (id : string)
| Add_user (id : option string) (pw : string).

Section Dispatch.
Context `{Libs}.

Definition handle (r : request) : M response :=
  match r with
  | Root => FUN_root
  | Public => FUN_public
  | Private => FUN_private
  | Admin => FUN_admin
  | Write_note nid now text => FUN_write_note nid now text
  | Delete_note note_id => FUN_delete_note note_id
  | Upload_image now files => FUN_upload_image now files
  | Delete_image image_uid => FUN_delete_image image_uid
  | Login id pw => FUN_login id pw
  | Logout => FUN_logout
  | Delete_user id => FUN_delete_user id
  | Add_user id pw => FUN_add_user id pw
  end.

(** The state a request leaves behind, however its handler ended. *)
Definition after (r : request) (s : state) : state := snd (handle r s).

(** A run of the server: each request arrives with the identity its
    session cookie carries, and is handled on the stores the previous
    request left. *)
Definition serve (visits : list (option string * request)) (s : state) : state :=
  fold_left (fun s v => after (snd v) (set_current_user (fst v) s)) visits s.

(** The changes of the record store by identity [u]: none; a note or image
    row of [u] inserted; a note or image that resolves to [u] deleted; and,
    for "ADMIN" only, a user other than "ADMIN" deleted or a new id added. *)
Inductive db_step (u : option string) (d : Database.t) : Database.t -> Prop :=
| step_same : db_step u d d
| step_write_note id nid now text :
    u = Some id -> db_step u d (write_note_into_db nid now id text d)
| step_delete_note id nid :
    u = Some id -> match_user_id_with_note_id nid d = Found id ->
    db_step u d (delete_note_from_db nid d)
| step_upload id uid name now :
    u = Some id -> db_step u d (image_upload_record uid id name now d)
| step_delete_image id uid :
    u = Some id -> match_user_id_with_image_uid uid d = Found id ->
    db_step u d (delete_image_from_db uid d)
| step_delete_user id :
    u = Some "ADMIN" -> id <> "ADMIN" -> db_step u d (delete_user_from_db id d)
| step_add_user i pw :
    u = Some "ADMIN" -> ~ In (str_upper i) (list_users d) ->
    db_step u d (add_user i pw d).

(** The ids a request brings are new: the note id the store hands out, and
    for an upload the digest, which is also free of dashes and names no
    file yet. *)
Definition fresh (r : request) (s : state) : Prop :=
  match r with
  | Write_note nid _ _ => match_user_id_with_note_id nid (db s) = NotFound
  | Upload_image now (Some file) =>
      let filename := secure_filename (upload_filename file) in
      let image_uid := sha1_hexdigest (now ++ filename) in
      Py.contains "-" image_uid = false
      /\ match_user_id_with_image_uid image_uid (db s) = NotFound
      /\ Inv.blobs_of image_uid (pool s) = []
  | _ => True
  end.

End Dispatch.

(** The rows of one owner. *)
Definition notes_of (owner : string) (d : Database.t) : list note_row :=
  filter (fun r => String.eqb (note_user r) owner) (notes d).

Definition images_of (owner : string) (d : Database.t) : list image_row :=
  filter (fun r => String.eqb (img_owner r) owner) (images d).

End Routes.

(** ** Python primitives on examples *)

Example upper_mixed : Py.upper "bob_7z" = "BOB_7Z".
Proof. reflexivity. Qed.

Example lower_mixed : Py.lower "Photo.JPG" = "photo.jpg".
Proof. reflexivity. Qed.

Example split1_two_dashes : Py.split1 "-" "ab12-my-cat.png" = ("ab12", Some "my-cat.png").
Proof. reflexivity. Qed.

Example split1_no_dash : Py.split1 "-" "README" = ("README", None).
Proof. reflexivity. Qed.

Example rsplit1_two_dots : Py.rsplit1 "." "a.tar.gz" = ["a.tar"; "gz"].
Proof. reflexivity. Qed.

Example rsplit1_no_dot : Py.rsplit1 "." "Makefile" = ["Makefile"].
Proof. reflexivity. Qed.

Example rsplit1_trailing_dot : Py.rsplit1 "." "photo." = ["photo"; ""].
Proof. reflexivity. Qed.

(** ** Running a handler *)

Import Database App Inv.

Ltac run :=
  unfold db_read, db_write, session_get, session_item, redirect, flash,
    logger_info, logger_warning, os_listdir, file_save, item0,
    bind, ret, gets, modify, abort, raise; cbn [fst snd].

Section StateFacts.

(** A request already made under identity [u] is its own [as_user u]. *)
Lemma as_user_same u s : current_user s = Some u -> as_user u s = s.
Proof. destruct s; cbn; intros ->; reflexivity. Qed.

Lemma is_owner_found u o : is_owner (Some u) (Found o) = true <-> u = o.
Proof. cbn. apply String.eqb_eq. Qed.

Lemma is_owner_other u o : u <> o -> is_owner (Some u) (Found o) = false.
Proof. intros Hne. cbn. now apply String.eqb_neq. Qed.

Lemma is_owner_not_found u : is_owner u NotFound = false.
Proof. now destruct u. Qed.

Lemma is_admin_iff u : is_admin u = true <-> u = Some "ADMIN".
Proof.
  destruct u as [id|]; cbn; [|split; discriminate].
  rewrite String.eqb_eq. split; [now intros -> | now intros [= ->]].
Qed.

End StateFacts.

(** ** The upload directory *)

Section Pool.

Lemma filter_names uid p :
  filter (has_prefix uid) (map blob_name p) = map blob_name (blobs_of uid p).
Proof.
  unfold blobs_of. induction p as [|b p IH]; cbn; [reflexivity|].
  destruct (has_prefix uid (blob_name b)); cbn; now rewrite IH.
Qed.

Lemma has_prefix_eq uid y : has_prefix uid y = true <-> fst (Py.split1 "-" y) = uid.
Proof. apply String.eqb_eq. Qed.

(** A file name has one prefix. *)
Lemma has_prefix_functional u v y :
  has_prefix u y = true -> has_prefix v y = true -> u = v.
Proof. rewrite !has_prefix_eq. congruence. Qed.

Lemma blobs_of_In uid p b : In b (blobs_of uid p) <-> In b p /\ has_prefix uid (blob_name b) = true.
Proof. apply filter_In. Qed.

Lemma name_is_self b : name_is (blob_name b) b = true.
Proof. apply String.eqb_refl. Qed.

Lemma name_is_prefix uid b x :
  name_is (blob_name b) x = true ->
  has_prefix uid (blob_name x) = has_prefix uid (blob_name b).
Proof. unfold name_is. rewrite String.eqb_eq. now intros ->. Qed.

(** With one file for [uid], removing it by name removes the files of
    [uid], and nothing else. *)
Lemma remove_by_name_is_remove_by_prefix uid p b :
  blobs_of uid p = [b] ->
  filter (fun x => negb (name_is (blob_name b) x)) p = purge [uid] p.
Proof.
  intros Hone. unfold purge. apply filter_ext_in. intros x Hx. cbn [existsb].
  rewrite orb_false_r. f_equal.
  destruct (name_is (blob_name b) x) eqn:Hn.
  - rewrite (name_is_prefix uid _ _ Hn). symmetry.
    assert (In b (blobs_of uid p)) as Hb by (rewrite Hone; now left).
    now apply blobs_of_In in Hb.
  - destruct (has_prefix uid (blob_name x)) eqn:Hp; [|reflexivity].
    assert (In x (blobs_of uid p)) as Hin by (apply blobs_of_In; auto).
    rewrite Hone in Hin. destruct Hin as [<-|[]].
    now rewrite name_is_self in Hn.
Qed.

Lemma blobs_of_purge_same uid uids p :
  In uid uids -> blobs_of uid (purge uids p) = [].
Proof.
  intros Hin. unfold blobs_of, purge.
  induction p as [|b p IH]; cbn; [reflexivity|].
  destruct (existsb _ uids) eqn:He; cbn; [exact IH|].
  destruct (has_prefix uid (blob_name b)) eqn:Hp; [|exact IH].
  exfalso. apply Bool.not_true_iff_false in He. apply He.
  apply existsb_exists. now exists uid.
Qed.

Lemma blobs_of_purge_other uid uids p :
  ~ In uid uids -> blobs_of uid (purge uids p) = blobs_of uid p.
Proof.
  intros Hout. unfold blobs_of, purge.
  induction p as [|b p IH]; cbn; [reflexivity|].
  destruct (has_prefix uid (blob_name b)) eqn:Hp.
  - assert (existsb (fun u => has_prefix u (blob_name b)) uids = false) as ->.
    { apply Bool.not_true_iff_false. intros He.
      apply existsb_exists in He as (v & Hv & Hpv).
      now rewrite (has_prefix_functional _ _ _ Hp Hpv) in Hout. }
    cbn. rewrite Hp. now f_equal.
  - destruct (existsb _ uids); cbn; [exact IH|]. now rewrite Hp.
Qed.

Lemma purge_purge us vs p : purge vs (purge us p) = purge (us ++ vs) p.
Proof.
  unfold purge. induction p as [|b p IH]; cbn; [reflexivity|].
  rewrite existsb_app.
  destruct (existsb _ us); cbn; [exact IH|].
  destruct (existsb _ vs); cbn; [exact IH|]. now f_equal.
Qed.

Context `{Libs}.

(** What [remove_from_pool] does: the first matching entry of the listing
    goes, and with no matching entry item [0] does not exist. *)
Lemma remove_from_pool_first uid s b rest :
  blobs_of uid (pool s) = b :: rest ->
  remove_from_pool uid s
  = (Ret tt, set_pool (filter (fun x => negb (name_is (blob_name b) x)) (pool s)) s).
Proof.
  intros Hb. unfold remove_from_pool. run.
  rewrite filter_names, Hb. cbn [map]. unfold os_remove. run.
  assert (existsb (name_is (blob_name b)) (pool s) = true) as ->.
  { apply existsb_exists. exists b. split; [|apply name_is_self].
    assert (In b (blobs_of uid (pool s))) as Hin by (rewrite Hb; now left).
    now apply blobs_of_In in Hin. }
  reflexivity.
Qed.

Lemma remove_from_pool_none uid s :
  blobs_of uid (pool s) = [] ->
  remove_from_pool uid s = (Raise IndexError, s).
Proof.
  intros Hb. unfold remove_from_pool. run.
  now rewrite filter_names, Hb.
Qed.

Lemma remove_from_pool_one uid s b :
  blobs_of uid (pool s) = [b] ->
  remove_from_pool uid s = (Ret tt, set_pool (purge [uid] (pool s)) s).
Proof.
  intros Hb. rewrite (remove_from_pool_first _ _ _ _ Hb).
  now rewrite (remove_by_name_is_remove_by_prefix _ _ _ Hb).
Qed.

End Pool.

(** ** The tables *)

Section Tables.

Lemma find_none_of {A} (f : A -> bool) l :
  (forall x, In x l -> f x = false) -> find f l = None.
Proof.
  induction l as [|x l IH]; cbn; intros Hall; [reflexivity|].
  rewrite (Hall x (or_introl eq_refl)). apply IH. intros y Hy. apply Hall. now right.
Qed.

(** Deleting the rows of key [k] leaves no row for a lookup of [k]. *)
Lemma find_after_delete {A} (key : A -> string) k l :
  find (fun r => String.eqb (key r) k)
       (filter (fun r => negb (String.eqb (key r) k)) l) = None.
Proof.
  apply find_none_of. intros x Hx. apply filter_In in Hx as [_ Hx].
  now apply negb_true_iff in Hx.
Qed.

(** With unique keys, dropping the row a lookup finds leaves none for it. *)
Lemma find_after_drop {A} (key : A -> string) (keep : A -> bool) k l r :
  NoDup (map key l) ->
  find (fun x => String.eqb (key x) k) l = Some r ->
  keep r = false ->
  find (fun x => String.eqb (key x) k) (filter keep l) = None.
Proof.
  induction l as [|x l IH]; cbn; [discriminate|].
  intros Hnd Hfind Hdrop. inversion Hnd as [|? ? Hfresh Hnd']; subst.
  destruct (String.eqb (key x) k) eqn:Hk.
  - injection Hfind as ->. rewrite Hdrop.
    apply find_none_of. intros y Hy. apply filter_In in Hy as [Hy _].
    apply String.eqb_eq in Hk. apply String.eqb_neq. intros Heq.
    apply Hfresh. rewrite Hk, <- Heq. now apply in_map.
  - destruct (keep x); cbn; [rewrite Hk|]; now apply IH.
Qed.

(** A lookup that finds a row finds a row of the table. *)
Lemma find_key_In {A} (key : A -> string) k l r :
  find (fun x => String.eqb (key x) k) l = Some r -> In r l /\ key r = k.
Proof.
  intros Hf. apply find_some in Hf as [Hin Hk]. now apply String.eqb_eq in Hk.
Qed.

Lemma image_gone_after_delete uid d :
  match_user_id_with_image_uid uid (delete_image_from_db uid d) = NotFound.
Proof.
  unfold match_user_id_with_image_uid, delete_image_from_db. cbn [images].
  now rewrite find_after_delete.
Qed.

Lemma note_gone_after_delete nid d :
  match_user_id_with_note_id nid (delete_note_from_db nid d) = NotFound.
Proof.
  unfold match_user_id_with_note_id, delete_note_from_db. cbn [notes].
  now rewrite find_after_delete.
Qed.

Lemma image_lookup_row uid d o :
  match_user_id_with_image_uid uid d = Found o ->
  exists r, find (fun x => String.eqb (img_uid x) uid) (images d) = Some r /\ img_owner r = o.
Proof.
  unfold match_user_id_with_image_uid.
  destruct (find _ (images d)) as [r|]; [|discriminate].
  intros [= <-]. now exists r.
Qed.

Lemma note_lookup_row nid d o :
  match_user_id_with_note_id nid d = Found o ->
  exists r, find (fun x => String.eqb (note_id x) nid) (notes d) = Some r /\ note_user r = o.
Proof.
  unfold match_user_id_with_note_id.
  destruct (find _ (notes d)) as [r|]; [|discriminate].
  intros [= <-]. now exists r.
Qed.

End Tables.

(** ** Delete Image *)

Section DeleteImage.

(** The guard fails: nothing is touched and the answer is 401. *)
Lemma delete_image_rejected uid s :
  is_owner (current_user s) (match_user_id_with_image_uid uid (db s)) = false ->
  FUN_delete_image uid s = (Abort 401, s).
Proof. intros Hg. unfold FUN_delete_image. run. now rewrite Hg. Qed.

(** The guard passes and the listing has a match: the row and the first
    match go. *)
Lemma delete_image_accepted uid s b rest :
  is_owner (current_user s) (match_user_id_with_image_uid uid (db s)) = true ->
  blobs_of uid (pool s) = b :: rest ->
  FUN_delete_image uid s
  = (Ret (Redirect to_FUN_private),
     set_pool (filter (fun x => negb (name_is (blob_name b) x)) (pool s))
              (set_db (delete_image_from_db uid (db s)) s)).
Proof.
  intros Hg Hb. unfold FUN_delete_image. run. rewrite Hg. run.
  now rewrite (remove_from_pool_first uid (set_db _ s) b rest Hb).
Qed.

(** The guard passes and the listing has no match: the row is gone and the
    handler stops in [IndexError]. *)
Lemma delete_image_no_blob uid s :
  is_owner (current_user s) (match_user_id_with_image_uid uid (db s)) = true ->
  blobs_of uid (pool s) = [] ->
  FUN_delete_image uid s
  = (Raise IndexError, set_db (delete_image_from_db uid (db s)) s).
Proof.
  intros Hg Hb. unfold FUN_delete_image. run. rewrite Hg. run.
  now rewrite (remove_from_pool_none uid (set_db _ s) Hb).
Qed.


(** C1. For an image of user A with its one file in the upload directory:
    every requester B other than A and other than "ADMIN" is answered 401
    and nothing changes; A's own request is answered with the redirect, and
    afterwards the row does not resolve and no file of the image remains. *)
Theorem delete_image_owner_only (A uid : string) (s : state) :
  match_user_id_with_image_uid uid (db s) = Found A ->
  (exists b, blobs_of uid (pool s) = [b]) ->
  (forall B, B <> A -> B <> "ADMIN" ->
     FUN_delete_image uid (as_user B s) = (Abort 401, as_user B s))
  /\ (exists s',
        FUN_delete_image uid (as_user A s) = (Ret (Redirect to_FUN_private), s')
        /\ db s' = delete_image_from_db uid (db s)
        /\ pool s' = purge [uid] (pool s)
        /\ match_user_id_with_image_uid uid (db s') = NotFound
        /\ blobs_of uid (pool s') = []).
Proof.
  intros Hown [b Hb]. split.
  - intros B HBA _. apply delete_image_rejected. cbn [as_user set_current_user current_user db].
    rewrite Hown. now apply is_owner_other.
  - eexists. split; [|split; [|split; [|split]]].
    + rewrite (delete_image_accepted uid (as_user A s) b []); [reflexivity| |exact Hb].
      cbn [as_user set_current_user current_user db]. rewrite Hown. now apply is_owner_found.
    + reflexivity.
    + cbn [pool set_pool set_db as_user set_current_user].
      exact (remove_by_name_is_remove_by_prefix _ _ _ Hb).
    + cbn [db set_pool set_db as_user set_current_user]. apply image_gone_after_delete.
    + cbn [pool set_pool set_db as_user set_current_user].
      rewrite (remove_by_name_is_remove_by_prefix _ _ _ Hb).
      apply blobs_of_purge_same. now left.
Qed.


End DeleteImage.

(** ** Delete Note *)

Section DeleteNote.

(** C5. For a note of owner A: the request of A is answered with the
    redirect and the note no longer resolves; every other request, the one
    of "ADMIN" and the one without identity among them, is answered 401 and
    nothing changes. *)
Theorem delete_note_owner_only (A nid : string) (s : state) :
  match_user_id_with_note_id nid (db s) = Found A ->
  (current_user s = Some A ->
     FUN_delete_note nid s
     = (Ret (Redirect to_FUN_private), set_db (delete_note_from_db nid (db s)) s)
     /\ match_user_id_with_note_id nid (delete_note_from_db nid (db s)) = NotFound)
  /\ (current_user s <> Some A -> FUN_delete_note nid s = (Abort 401, s))
  /\ (A <> "ADMIN" ->
      FUN_delete_note nid (as_user "ADMIN" s) = (Abort 401, as_user "ADMIN" s)).
Proof.
  intros Hown.
  assert (forall t, db t = db s -> current_user t <> Some A ->
                    FUN_delete_note nid t = (Abort 401, t)) as Hrej.
  { intros t Hdb Hne. unfold FUN_delete_note. run. rewrite Hdb, Hown.
    destruct (current_user t) as [u|]; cbn [is_owner]; [|reflexivity].
    destruct (String.eqb_spec u A) as [->|_]; [now elim Hne | reflexivity]. }
  split; [|split].
  - intros Hu. split; [|apply note_gone_after_delete].
    unfold FUN_delete_note. run. rewrite Hown, Hu. cbn [is_owner].
    now rewrite String.eqb_refl.
  - now apply Hrej.
  - intros HA. apply Hrej; [reflexivity|]. cbn. intros [= <-]. now apply HA.
Qed.

End DeleteNote.

(** ** Delete User *)

Section DeleteUser.

Lemma purge_nil p : purge [] p = p.
Proof.
  unfold purge. induction p as [|b p IH]; cbn; [reflexivity|]. f_equal. exact IH.
Qed.

Lemma set_pool_same s : set_pool (pool s) s = s.
Proof. now destruct s. Qed.

Lemma NoDup_map_filter {A B} (f : A -> B) (keep : A -> bool) l :
  NoDup (map f l) -> NoDup (map f (filter keep l)).
Proof.
  induction l as [|x l IH]; cbn; [trivial|].
  intros Hnd. inversion Hnd as [|? ? Hfresh Hnd']; subst.
  destruct (keep x); cbn; [|now apply IH].
  constructor; [|now apply IH].
  intros Hin. apply Hfresh. apply in_map_iff in Hin as (y & Hy & Hin).
  apply filter_In in Hin as [Hin _]. apply in_map_iff. now exists y.
Qed.

Lemma images_to_remove_rows id d :
  images_to_remove id d
  = map img_uid (filter (fun r => String.eqb (img_owner r) id) (images d)).
Proof.
  unfold images_to_remove, list_images_for_user. rewrite map_map. reflexivity.
Qed.

Lemma images_to_remove_In id d uid :
  In uid (images_to_remove id d) <->
  exists r, In r (images d) /\ img_owner r = id /\ img_uid r = uid.
Proof.
  rewrite images_to_remove_rows, in_map_iff. split.
  - intros (r & Hu & Hr). apply filter_In in Hr as [Hin Ho].
    apply String.eqb_eq in Ho. now exists r.
  - intros (r & Hin & Ho & Hu). exists r. split; [exact Hu|].
    apply filter_In. split; [exact Hin|]. now apply String.eqb_eq.
Qed.

(** The loop: with one file per id and no id twice, every iteration finds
    its file, and the directory loses exactly the files of those ids. *)
Lemma for_each_remove l :
  forall s,
    NoDup l ->
    (forall uid, In uid l -> exists b, blobs_of uid (pool s) = [b]) ->
    for_each l remove_from_pool s = (Ret tt, set_pool (purge l (pool s)) s).
Proof.
  induction l as [|u l IH]; intros s Hnd Hone.
  - cbn. unfold ret. now rewrite purge_nil, set_pool_same.
  - inversion Hnd as [|? ? Hfresh Hnd']; subst.
    destruct (Hone u (or_introl eq_refl)) as [b Hb].
    cbn [for_each]. unfold bind at 1. rewrite (remove_from_pool_one u s b Hb).
    rewrite IH; [| exact Hnd' |].
    + cbn [pool set_pool]. rewrite purge_purge. reflexivity.
    + intros v Hv. cbn [pool set_pool]. rewrite blobs_of_purge_other.
      * apply Hone. now right.
      * intros [<-|[]]. now apply Hfresh.
Qed.

(** What an admin's request to delete a user other than "ADMIN" does. *)
Lemma delete_user_runs U s :
  U <> "ADMIN" ->
  current_user s = Some "ADMIN" ->
  unique_ids (db s) ->
  one_blob_each s ->
  FUN_delete_user U s
  = (Ret (Redirect to_FUN_admin),
     set_db (delete_user_from_db U (db s))
            (set_pool (purge (images_to_remove U (db s)) (pool s)) s)).
Proof.
  intros HU Hadm [_ Huniq] Hblobs. unfold FUN_delete_user. run.
  rewrite Hadm. cbn [is_admin]. rewrite String.eqb_refl.
  apply String.eqb_neq in HU. rewrite HU.
  fold (images_to_remove U (db s)).
  rewrite for_each_remove.
  - reflexivity.
  - rewrite images_to_remove_rows. now apply NoDup_map_filter.
  - intros uid Hin. apply images_to_remove_In in Hin as (r & Hr & _ & <-).
    now apply Hblobs.
Qed.

(** C2, as the handler has it.  A request to delete "ADMIN" never deletes
    anything: it is answered 403 when the requester is "ADMIN", and 401 for
    every other requester. *)
Theorem delete_admin_refused (s : state) :
  (current_user s = Some "ADMIN" -> FUN_delete_user "ADMIN" s = (Abort 403, s))
  /\ (current_user s <> Some "ADMIN" -> FUN_delete_user "ADMIN" s = (Abort 401, s)).
Proof.
  unfold FUN_delete_user. run. split.
  - now intros ->.
  - intros Hne. destruct (is_admin (current_user s)) eqn:Ha; [|reflexivity].
    now apply is_admin_iff in Ha.
Qed.

(** C3. After an admin deleted a user U other than "ADMIN" from consistent
    stores, U is no user, every note id and image id that resolved to U
    does not resolve, and no file of an image of U remains. *)
Theorem delete_user_cascade (U : string) (s : state) :
  U <> "ADMIN" ->
  current_user s = Some "ADMIN" ->
  unique_ids (db s) ->
  one_blob_each s ->
  exists s',
    FUN_delete_user U s = (Ret (Redirect to_FUN_admin), s')
    /\ ~ In U (list_users (db s'))
    /\ (forall nid, match_user_id_with_note_id nid (db s) = Found U ->
                    match_user_id_with_note_id nid (db s') = NotFound)
    /\ (forall uid, match_user_id_with_image_uid uid (db s) = Found U ->
                    match_user_id_with_image_uid uid (db s') = NotFound
                    /\ blobs_of uid (pool s') = []).
Proof.
  intros HU Hadm Huniq Hblobs. eexists. split; [now apply delete_user_runs|].
  destruct Huniq as [Hnotes Himages].
  cbn [db pool set_db set_pool]. split; [|split].
  - unfold list_users, delete_user_from_db. cbn [users]. intros Hin.
    apply in_map_iff in Hin as (r & Hid & Hr). apply filter_In in Hr as [_ Hkeep].
    apply negb_true_iff, String.eqb_neq in Hkeep. now apply Hkeep.
  - intros nid Hown. apply note_lookup_row in Hown as (r & Hfind & Ho).
    unfold match_user_id_with_note_id, delete_user_from_db. cbn [notes].
    rewrite (find_after_drop note_id _ nid (notes (db s)) r Hnotes Hfind); [reflexivity|].
    rewrite Ho. now rewrite String.eqb_refl.
  - intros uid Hown. apply image_lookup_row in Hown as (r & Hfind & Ho). split.
    + unfold match_user_id_with_image_uid, delete_user_from_db. cbn [images].
      rewrite (find_after_drop img_uid _ uid (images (db s)) r Himages Hfind); [reflexivity|].
      rewrite Ho. now rewrite String.eqb_refl.
    + apply blobs_of_purge_same. apply images_to_remove_In.
      apply find_key_In in Hfind as [Hin Hk]. now exists r.
Qed.

End DeleteUser.

(** ** Strings *)

Section Strings.

Lemma upper_char_idempotent c : Py.upper_char (Py.upper_char c) = Py.upper_char c.
Proof. destruct c as [[] [] [] [] [] [] [] []]; reflexivity. Qed.

Lemma upper_idempotent s : Py.upper (Py.upper s) = Py.upper s.
Proof.
  induction s as [|c s IH]; cbn; [reflexivity|].
  now rewrite upper_char_idempotent, IH.
Qed.

Lemma str_in_In x l : Py.str_in x l = true <-> In x l.
Proof.
  unfold Py.str_in. rewrite existsb_exists. split.
  - intros (y & Hy & He). apply String.eqb_eq in He. now subst.
  - intros Hin. exists x. split; [exact Hin | apply String.eqb_refl].
Qed.

Lemma str_in_not_In x l : Py.str_in x l = false <-> ~ In x l.
Proof. rewrite <- str_in_In. now destruct (Py.str_in x l). Qed.

Lemma contains_nonempty c s : Py.contains c s = true -> s <> "".
Proof. now destruct s. Qed.

(** [rsplit] without the separator: the string itself, one item. *)
Lemma rsplit1_absent sep s : Py.contains sep s = false -> Py.rsplit1 sep s = [s].
Proof.
  induction s as [|c s IH]; cbn; [reflexivity|].
  intros Hc. apply orb_false_iff in Hc as [Hsep Hc].
  now rewrite (IH Hc), Hsep.
Qed.

(** [rsplit] at the last separator: what is after it has none. *)
Lemma rsplit1_at_last sep stem ext :
  Py.contains sep ext = false ->
  Py.rsplit1 sep (stem ++ String sep ext) = [stem; ext].
Proof.
  intros Hext. induction stem as [|c stem IH]; cbn.
  - now rewrite (rsplit1_absent _ _ Hext), Ascii.eqb_refl.
  - now rewrite IH.
Qed.

(** With the separator in the string there are two items. *)
Lemma rsplit1_present sep s :
  Py.contains sep s = true ->
  exists stem ext,
    s = stem ++ String sep ext /\ Py.contains sep ext = false.
Proof.
  induction s as [|c s IH]; cbn; [discriminate|].
  intros Hc. destruct (Py.contains sep s) eqn:Hs.
  - destruct (IH eq_refl) as (stem & ext & -> & Hext).
    now exists (String c stem), ext.
  - rewrite orb_false_r in Hc. apply Ascii.eqb_eq in Hc as ->.
    now exists "", s.
Qed.


(** Item [1] of the split that [allowed_file] reads is there. *)
Lemma rsplit1_item1 sep s :
  Py.contains sep s = true -> exists ext, nth_error (Py.rsplit1 sep s) 1 = Some ext.
Proof.
  intros Hc. destruct (rsplit1_present _ _ Hc) as (stem & ext & -> & Hext).
  exists ext. now rewrite rsplit1_at_last.
Qed.


End Strings.

(** ** Add User *)

Section AddUser.
Context `{Libs}.

Lemma taken_iff i d :
  normalized d -> (taken i d <-> In (str_upper i) (list_users d)).
Proof.
  intros Hnorm. split.
  - intros (e & He & Heq). rewrite <- Heq, (Hnorm e He). exact He.
  - intros Hin. exists (str_upper i). split; [exact Hin | now apply Hnorm].
Qed.

Lemma list_users_add_user i pw d :
  list_users (add_user i pw d) = (list_users d ++ [str_upper i])%list.
Proof. unfold list_users, add_user. cbn [users]. now rewrite map_app. Qed.

Lemma verify_added i pw d :
  ~ In (str_upper i) (list_users d) ->
  verify (str_upper i) pw (add_user i pw d) = true.
Proof.
  intros Hnew. unfold verify, add_user. cbn [users].
  assert (forall l, ~ In (str_upper i) (map user_id l) ->
            find (fun r => String.eqb (user_id r) (str_upper i))
                 (l ++ [{| user_id := str_upper i; user_cred := pw_digest pw |}])%list
            = Some {| user_id := str_upper i; user_cred := pw_digest pw |}) as Hfind.
  { induction l as [|x l IH]; cbn; intros Hout.
    - now rewrite String.eqb_refl.
    - destruct (String.eqb_spec (user_id x) (str_upper i)) as [Heq|_].
      + elim Hout. now left.
      + apply IH. intros Hin. apply Hout. now right. }
  rewrite (Hfind _ Hnew). cbn [user_cred]. apply String.eqb_refl.
Qed.

(** Where upper-casing twice is upper-casing once, adding a user keeps the
    stored ids upper-case. *)
Lemma normalized_add_user i pw d :
  str_upper (str_upper i) = str_upper i ->
  normalized d -> normalized (add_user i pw d).
Proof.
  intros Hidem Hnorm id. rewrite list_users_add_user, in_app_iff.
  intros [Hold|[<-|[]]]; [now apply Hnorm | exact Hidem].
Qed.

(** C6. Add User by an "ADMIN" session on a store of upper-case ids: an id
    that equals a stored id up to case, as [str.upper()] has it, gets the
    duplicate page and nothing is stored; otherwise an id with a space or a
    single quote gets the invalid page and nothing is stored; otherwise the
    user is created from the given id and password, is listed and verifies
    with that password. *)
Theorem add_user_outcomes (i pw : string) (s : state) :
  current_user s = Some "ADMIN" ->
  normalized (db s) ->
  (taken i (db s) ->
     FUN_add_user (Some i) pw s
     = (Ret (Page_admin {| id_to_add_is_duplicated := true;
                           id_to_add_is_invalid := false;
                           users_table := user_table (list_users (db s)) |}), s))
  /\ (~ taken i (db s) ->
      Py.contains " " i = true \/ Py.contains "'" i = true ->
      FUN_add_user (Some i) pw s
      = (Ret (Page_admin {| id_to_add_is_duplicated := false;
                            id_to_add_is_invalid := true;
                            users_table := user_table (list_users (db s)) |}), s))
  /\ (~ taken i (db s) ->
      Py.contains " " i = false ->
      Py.contains "'" i = false ->
      FUN_add_user (Some i) pw s
      = (Ret (Redirect to_FUN_admin), set_db (add_user i pw (db s)) s)
      /\ In (str_upper i) (list_users (add_user i pw (db s)))
      /\ verify (str_upper i) pw (add_user i pw (db s)) = true).
Proof.
  intros Hadm Hnorm. unfold FUN_add_user. run. rewrite Hadm. cbn [is_admin].
  rewrite String.eqb_refl. split; [|split].
  - intros Htaken. apply (taken_iff _ _ Hnorm), str_in_In in Htaken. now rewrite Htaken.
  - intros Hfree Hbad. rewrite (taken_iff _ _ Hnorm), <- str_in_not_In in Hfree.
    rewrite Hfree. apply orb_true_iff in Hbad. now rewrite Hbad.
  - intros Hfree Hsp Hq. rewrite (taken_iff _ _ Hnorm) in Hfree.
    pose proof Hfree as Hout. rewrite <- str_in_not_In in Hout.
    rewrite Hout, Hsp, Hq. cbn [orb]. repeat split.
    + rewrite list_users_add_user, in_app_iff. right. now left.
    + now apply verify_added.
Qed.

End AddUser.

(** ** Upload Image *)

Section Upload.
Context `{Libs}.

Lemma write_file_In name bytes p :
  In {| blob_name := name; blob_bytes := bytes |} (write_file name bytes p).
Proof.
  induction p as [|b p IH]; cbn; [now left|].
  destruct (name_is name b); [now left | now right].
Qed.


(** An allowed file from a session with identity [u]. *)
Lemma upload_accepted now file u s :
  current_user s = Some u ->
  allowed_file (upload_filename file) = true ->
  let filename := secure_filename (upload_filename file) in
  let image_uid := sha1_hexdigest (now ++ filename) in
  FUN_upload_image now (Some file) s
  = (Ret (Redirect to_FUN_private),
     set_db (image_upload_record image_uid u filename now (db s))
            (set_pool (write_file (image_uid ++ "-" ++ filename) (upload_bytes file) (pool s)) s)).
Proof.
  intros Hu Hok. cbn zeta. unfold FUN_upload_image, file_truthy. run.
  assert (String.eqb (upload_filename file) "" = false) as ->.
  { apply String.eqb_neq. apply andb_true_iff in Hok as [Hdot _].
    exact (contains_nonempty _ _ Hdot). }
  rewrite Hok. cbn [negb andb set_pool current_user]. now rewrite Hu.
Qed.

(** An allowed file from a session without identity: the file is written,
    then [session["current_user"]] raises and no row is inserted. *)
Lemma upload_anonymous now file s :
  current_user s = None ->
  allowed_file (upload_filename file) = true ->
  let filename := secure_filename (upload_filename file) in
  let image_uid := sha1_hexdigest (now ++ filename) in
  FUN_upload_image now (Some file) s
  = (Raise (KeyError "current_user"),
     set_pool (write_file (image_uid ++ "-" ++ filename) (upload_bytes file) (pool s)) s).
Proof.
  intros Hu Hok. cbn zeta. unfold FUN_upload_image, file_truthy. run.
  assert (String.eqb (upload_filename file) "" = false) as ->.
  { apply String.eqb_neq. apply andb_true_iff in Hok as [Hdot _].
    exact (contains_nonempty _ _ Hdot). }
  rewrite Hok. cbn [negb andb set_pool current_user]. now rewrite Hu.
Qed.


(** C8. An accepted upload with sanitized name F at timestamp T: the id is
    the digest of T followed by F, the file is written under that id, a
    dash and F, and the new row carries the id, the uploader, F and T. *)
Theorem upload_names_blob_and_row (now : string) (file : upload) (u : string) (s : state) :
  current_user s = Some u ->
  allowed_file (upload_filename file) = true ->
  let F := secure_filename (upload_filename file) in
  let uid := sha1_hexdigest (now ++ F) in
  exists s',
    FUN_upload_image now (Some file) s = (Ret (Redirect to_FUN_private), s')
    /\ pool s' = write_file (uid ++ "-" ++ F) (upload_bytes file) (pool s)
    /\ In {| blob_name := uid ++ "-" ++ F; blob_bytes := upload_bytes file |} (pool s')
    /\ images (db s')
       = (images (db s)
          ++ [{| img_uid := uid; img_owner := u; img_name := F; img_time := now |}])%list.
Proof.
  intros Hu Hok F uid. subst F uid. eexists.
  split; [exact (upload_accepted now file u s Hu Hok)|].
  cbn [pool db set_db set_pool images image_upload_record].
  repeat split. apply write_file_In.
Qed.

End Upload.

(** ** Requests without identity *)

Section Anonymous.
Context `{Libs}.

Lemma write_note_anonymous nid now text s :
  current_user s = None ->
  FUN_write_note nid now text s = (Raise (KeyError "current_user"), s).
Proof. intros Hu. unfold FUN_write_note. run. now rewrite Hu. Qed.

(** The handlers that do look at the session answer 401; the two that
    compare it with an owner do so for every id that resolves. *)
Lemma guarded_handlers_anonymous s :
  current_user s = None ->
  FUN_private s = (Abort 401, s)
  /\ FUN_admin s = (Abort 401, s)
  /\ (forall nid o, match_user_id_with_note_id nid (db s) = Found o ->
                    FUN_delete_note nid s = (Abort 401, s))
  /\ (forall uid o, match_user_id_with_image_uid uid (db s) = Found o ->
                    FUN_delete_image uid s = (Abort 401, s))
  /\ (forall id, FUN_delete_user id s = (Abort 401, s))
  /\ (forall id pw, FUN_add_user id pw s = (Abort 401, s)).
Proof.
  intros Hu.
  unfold FUN_private, FUN_admin, FUN_delete_note, FUN_delete_image,
    FUN_delete_user, FUN_add_user.
  run. rewrite Hu. cbn [is_admin is_owner]. repeat split.
Qed.

End Anonymous.

(** ** Login *)

Section Login.
Context `{Libs}.

(** What Login does, for every id and password. *)
Lemma login_runs i pw s :
  FUN_login (Some i) pw s
  = (Ret (Redirect to_FUN_root),
     if Py.str_in (str_upper i) (list_users (db s)) && verify (str_upper i) pw (db s)
     then add_log INFO ("Successful login for user: " ++ str_upper i)
            (set_current_user (Some (str_upper i))
               (add_log INFO ("Login attempt by user: " ++ str_upper i) s))
     else add_log WARNING ("Failed login attempt for user: " ++ str_upper i)
            (add_log INFO ("Login attempt by user: " ++ str_upper i) s)).
Proof.
  unfold FUN_login. run. cbn [db add_log].
  now destruct (Py.str_in _ _ && verify _ _ _).
Qed.

(** C10, as the handler has it.  Login looks up and verifies the id that
    [str.upper()] makes of the submitted one, so that two spellings with
    the same upper-casing are the same request.  Whatever the credentials,
    the handler returns the redirect to the root page and leaves the stores
    alone.  With a listed id and a password that verifies, the session
    carries the upper-cased id afterwards; with an unknown id or a wrong
    password the session is what it was. *)
Theorem login_redirects_either_way (i pw : string) (s : state) :
  let id_submitted := str_upper i in
  exists s',
    FUN_login (Some i) pw s = (Ret (Redirect to_FUN_root), s')
    /\ db s' = db s
    /\ pool s' = pool s
    /\ flashes s' = flashes s
    /\ (In id_submitted (list_users (db s)) ->
        verify id_submitted pw (db s) = true ->
        current_user s' = Some id_submitted)
    /\ (~ In id_submitted (list_users (db s)) \/ verify id_submitted pw (db s) = false ->
        current_user s' = current_user s)
    /\ (forall i', str_upper i' = id_submitted ->
        FUN_login (Some i') pw s = FUN_login (Some i) pw s).
Proof.
  cbn zeta. eexists. split; [apply login_runs|].
  destruct (Py.str_in (str_upper i) (list_users (db s))) eqn:Hin;
    destruct (verify (str_upper i) pw (db s)) eqn:Hver; cbn [andb];
    (split; [reflexivity|]); (split; [reflexivity|]); (split; [reflexivity|]);
    (split; [|split]);
    try (intros i' Hi'; rewrite !login_runs, Hi'; reflexivity).
  - reflexivity.
  - intros [Hl|Hv]; [apply str_in_In in Hin; contradiction | discriminate].
  - intros _ Hv. discriminate.
  - reflexivity.
  - intros Hl _. apply str_in_not_In in Hin. contradiction.
  - reflexivity.
  - intros _ Hv. discriminate.
  - reflexivity.
Qed.

End Login.

(** ** From upload to deletion *)

Section Lifecycle.
Context `{Libs}.

Lemma split1_prefix uid rest :
  Py.contains "-" uid = false -> fst (Py.split1 "-" (uid ++ String "-" rest)) = uid.
Proof.
  induction uid as [|c uid IH]; cbn; [reflexivity|].
  intros Hc. apply orb_false_iff in Hc as [Hsep Hc]. rewrite Hsep.
  specialize (IH Hc). destruct (Py.split1 "-" (uid ++ String "-" rest)). cbn in *.
  now rewrite IH.
Qed.

Lemma blobs_of_write_file uid name bytes p :
  has_prefix uid name = true ->
  blobs_of uid p = [] ->
  blobs_of uid (write_file name bytes p) = [{| blob_name := name; blob_bytes := bytes |}].
Proof.
  intros Hp. unfold blobs_of. induction p as [|b p IH]; cbn.
  - now rewrite Hp.
  - destruct (has_prefix uid (blob_name b)) eqn:Hb; [discriminate|]. intros Hnone.
    destruct (name_is name b) eqn:Hn.
    + unfold name_is in Hn. apply String.eqb_eq in Hn. congruence.
    + cbn. rewrite Hb. now apply IH.
Qed.

Lemma find_app_new {A} (f : A -> bool) l x :
  find f l = None -> f x = true -> find f (l ++ [x]) = Some x.
Proof.
  induction l as [|y l IH]; cbn; intros Hnone Hx.
  - now rewrite Hx.
  - destruct (f y); [discriminate | now apply IH].
Qed.

(** An upload under a fresh, dash-free id leaves the stores as the
    deletion theorems want them: the id resolves to the uploader and has
    one file. *)
Lemma upload_creates_image now file A s :
  current_user s = Some A ->
  allowed_file (upload_filename file) = true ->
  let F := secure_filename (upload_filename file) in
  let uid := sha1_hexdigest (now ++ F) in
  Py.contains "-" uid = false ->
  match_user_id_with_image_uid uid (db s) = NotFound ->
  blobs_of uid (pool s) = [] ->
  exists s',
    FUN_upload_image now (Some file) s = (Ret (Redirect to_FUN_private), s')
    /\ current_user s' = Some A
    /\ match_user_id_with_image_uid uid (db s') = Found A
    /\ exists b, blobs_of uid (pool s') = [b].
Proof.
  intros Hu Hok F uid Hdash Hfresh Hnone. subst F uid. eexists.
  split; [exact (upload_accepted now file A s Hu Hok)|].
  cbn [current_user pool db set_db set_pool]. split; [exact Hu|]. split.
  - unfold match_user_id_with_image_uid in *. cbn [images image_upload_record].
    destruct (find _ (images (db s))) eqn:Hf; [discriminate|].
    rewrite (find_app_new _ _ _ Hf); [reflexivity|]. apply String.eqb_refl.
  - eexists. apply blobs_of_write_file; [|exact Hnone].
    apply has_prefix_eq. cbn [String.append]. now apply split1_prefix.
Qed.

End Lifecycle.

(** ** Concrete runs *)

Import Demo.

Lemma demo_unique_ids : unique_ids Demo.store.
Proof.
  split; cbn; repeat (constructor; [cbn; intuition discriminate|]); constructor.
Defined.

Lemma demo_one_blob_each u : one_blob_each (Demo.request u).
Proof.
  intros r Hr. cbn in Hr.
  destruct Hr as [<-|[<-|[<-|[]]]]; eexists; reflexivity.
Defined.

Lemma demo_normalized : @normalized Demo.libs Demo.store.
Proof.
  intros id Hid. cbn in Hid.
  destruct Hid as [<-|[<-|[<-|[]]]]; reflexivity.
Defined.

Lemma delete_image_owner_only_witness :
  FUN_delete_image "ab12" bob = (Abort 401, bob)
  /\ exists s',
       FUN_delete_image "ab12" alice = (Ret (Redirect to_FUN_private), s')
       /\ match_user_id_with_image_uid "ab12" (db s') = NotFound
       /\ blobs_of "ab12" (pool s') = [].
Proof.
  destruct (delete_image_owner_only "ALICE" "ab12" nobody)
    as [Hrej (s' & Hrun & _ & _ & Hrow & Hfile)].
  - reflexivity.
  - eexists; reflexivity.
  - split.
    + apply (Hrej "BOB"); discriminate.
    + exists s'. repeat split; assumption.
Defined.

(** C2 as stated fails: the request of "BOB" to delete "ADMIN" is answered
    401, not 403. *)
Lemma delete_admin_by_bob_is_401 :
  fst (FUN_delete_user "ADMIN" bob) = Abort 401
  /\ fst (FUN_delete_user "ADMIN" bob) <> Abort 403.
Proof. split; [reflexivity | discriminate]. Qed.

Lemma delete_admin_refused_witness :
  FUN_delete_user "ADMIN" admin = (Abort 403, admin)
  /\ FUN_delete_user "ADMIN" bob = (Abort 401, bob).
Proof.
  split.
  - apply (proj1 (delete_admin_refused admin)). reflexivity.
  - apply (proj2 (delete_admin_refused bob)). discriminate.
Defined.

Lemma delete_user_cascade_witness :
  exists s',
    FUN_delete_user "ALICE" admin = (Ret (Redirect to_FUN_admin), s')
    /\ match_user_id_with_note_id "n1" (db s') = NotFound
    /\ match_user_id_with_image_uid "cd34" (db s') = NotFound
    /\ blobs_of "cd34" (pool s') = [].
Proof.
  destruct (delete_user_cascade "ALICE" admin) as (s' & Hrun & _ & Hnotes & Himages).
  - discriminate.
  - reflexivity.
  - exact demo_unique_ids.
  - exact (demo_one_blob_each _).
  - exists s'. split; [exact Hrun|]. split; [apply Hnotes; reflexivity|].
    apply Himages. reflexivity.
Defined.



Lemma delete_note_owner_only_witness :
  (exists s', FUN_delete_note "n1" alice = (Ret (Redirect to_FUN_private), s')
              /\ match_user_id_with_note_id "n1" (db s') = NotFound)
  /\ FUN_delete_note "n1" bob = (Abort 401, bob)
  /\ FUN_delete_note "n1" admin = (Abort 401, admin).
Proof.
  split; [|split].
  - destruct (delete_note_owner_only "ALICE" "n1" alice eq_refl) as (Hown & _ & _).
    destruct (Hown eq_refl) as [Hrun Hgone]. eexists. split; [exact Hrun | exact Hgone].
  - apply (delete_note_owner_only "ALICE" "n1" bob eq_refl). discriminate.
  - apply (delete_note_owner_only "ALICE" "n1" nobody eq_refl). discriminate.
Defined.

Lemma add_user_outcomes_witness :
  (exists p, @FUN_add_user Demo.libs (Some "bob") "pw" admin = (Ret (Page_admin p), admin)
             /\ id_to_add_is_duplicated p = true)
  /\ (exists p, @FUN_add_user Demo.libs (Some "o'brien") "pw" admin = (Ret (Page_admin p), admin)
                /\ id_to_add_is_invalid p = true)
  /\ (exists s', @FUN_add_user Demo.libs (Some "carol") "pw" admin
                 = (Ret (Redirect to_FUN_admin), s')
                 /\ @verify Demo.libs "CAROL" "pw" (db s') = true).
Proof.
  assert (forall i, Py.str_in (Py.upper i) (list_users Demo.store) = false ->
                    ~ @taken Demo.libs i Demo.store) as Hfree.
  { intros i Hi. rewrite (@taken_iff Demo.libs _ _ demo_normalized). now apply str_in_not_In. }
  split; [|split].
  - eexists. split.
    + apply (proj1 (@add_user_outcomes Demo.libs "bob" "pw" admin eq_refl demo_normalized)).
      exists "BOB". split; [cbn; auto | reflexivity].
    + reflexivity.
  - eexists. split.
    + apply (proj1 (proj2 (@add_user_outcomes Demo.libs "o'brien" "pw" admin eq_refl
                             demo_normalized))).
      * now apply Hfree.
      * now right.
    + reflexivity.
  - destruct (@add_user_outcomes Demo.libs "carol" "pw" admin eq_refl demo_normalized)
      as (_ & _ & Hnew).
    destruct Hnew as (Hrun & _ & Hver); [now apply Hfree | reflexivity | reflexivity |].
    eexists. split; [exact Hrun | exact Hver].
Defined.


Lemma upload_names_blob_and_row_witness :
  let uid := @sha1_hexdigest Demo.libs ("2024-05-01 10:00:00.000001" ++ "photo.JPG") in
  exists s',
    @FUN_upload_image Demo.libs "2024-05-01 10:00:00.000001"
      (Some {| upload_filename := "photo.JPG"; upload_bytes := "JFIF" |}) bob
    = (Ret (Redirect to_FUN_private), s')
    /\ In {| blob_name := uid ++ "-photo.JPG"; blob_bytes := "JFIF" |} (pool s')
    /\ In {| img_uid := uid; img_owner := "BOB"; img_name := "photo.JPG";
             img_time := "2024-05-01 10:00:00.000001" |} (images (db s')).
Proof.
  intros uid.
  destruct (@upload_names_blob_and_row Demo.libs "2024-05-01 10:00:00.000001"
              {| upload_filename := "photo.JPG"; upload_bytes := "JFIF" |} "BOB" bob
              eq_refl eq_refl)
    as (s' & Hrun & _ & Hblob & Hrow).
  exists s'. split; [exact Hrun|]. split; [exact Hblob|].
  rewrite Hrow. apply in_or_app. right. now left.
Defined.

(** C9 fails on the code: without identity, Write Note stops in [KeyError]
    and writes nothing; Upload Image writes the file, then stops in
    [KeyError] before the row is inserted. *)
Theorem write_without_identity_raises :
  FUN_write_note "n3" "2024-05-01 10:00:00.000001" "hello" nobody
  = (Raise (KeyError "current_user"), nobody)
  /\ @FUN_upload_image Demo.libs "2024-05-01 10:00:00.000001"
       (Some {| upload_filename := "photo.JPG"; upload_bytes := "JFIF" |}) nobody
     = (Raise (KeyError "current_user"),
        Demo.request_on
          (Demo.folder ++
           [ {| blob_name := "c0ffee20240501 10:00:00.000001photo.JPG-photo.JPG";
                blob_bytes := "JFIF" |} ])%list
          None).
Proof. split; reflexivity. Qed.

(** C10 as stated fails: a Login of "alice" with her password and one with
    a wrong password return the same redirect, yet what goes back to the
    caller differs, for the session of the first carries "ALICE" and the
    session of the second carries no identity. *)
Lemma login_reply_tells_outcome :
  fst (@FUN_login Demo.libs (Some "alice") "wonder" nobody)
  = fst (@FUN_login Demo.libs (Some "alice") "wrong" nobody)
  /\ reply (@FUN_login Demo.libs (Some "alice") "wonder") nobody
     = (Ret (Redirect to_FUN_root), (Some "ALICE", []))
  /\ reply (@FUN_login Demo.libs (Some "alice") "wrong") nobody
     = (Ret (Redirect to_FUN_root), (None, []))
  /\ reply (@FUN_login Demo.libs (Some "alice") "wonder") nobody
     <> reply (@FUN_login Demo.libs (Some "alice") "wrong") nobody.
Proof. repeat split. discriminate. Qed.

Lemma login_redirects_either_way_witness :
  (exists s',
     @FUN_login Demo.libs (Some "alice") "wonder" nobody = (Ret (Redirect to_FUN_root), s')
     /\ current_user s' = Some "ALICE")
  /\ (exists s',
        @FUN_login Demo.libs (Some "alice") "wrong" bob = (Ret (Redirect to_FUN_root), s')
        /\ current_user s' = Some "BOB")
  /\ @FUN_login Demo.libs (Some "Alice") "wonder" nobody
     = @FUN_login Demo.libs (Some "alice") "wonder" nobody.
Proof.
  split; [|split].
  - destruct (@login_redirects_either_way Demo.libs "alice" "wonder" nobody)
      as (s' & Hrun & _ & _ & _ & Hok & _ & _).
    exists s'. split; [exact Hrun|]. apply Hok; [cbn; auto | reflexivity].
  - destruct (@login_redirects_either_way Demo.libs "alice" "wrong" bob)
      as (s' & Hrun & _ & _ & _ & _ & Hbad & _).
    exists s'. split; [exact Hrun|]. apply Hbad. now right.
  - destruct (@login_redirects_either_way Demo.libs "alice" "wonder" nobody)
      as (s' & _ & _ & _ & _ & _ & _ & Hsame).
    apply (Hsame "Alice"). reflexivity.
Defined.

(** ** Every request, every session *)

Import Routes.

Section Frames.
Context `{Libs}.

(** Removing the file of an image touches the upload directory only, takes
    files away only, and can stop in [IndexError] only. *)
Lemma remove_from_pool_frame uid s :
  exists o p',
    remove_from_pool uid s = (o, set_pool p' s)
    /\ (o = Ret tt \/ (o = Raise IndexError /\ p' = pool s))
    /\ incl p' (pool s).
Proof.
  destruct (blobs_of uid (pool s)) as [|b rest] eqn:Hb.
  - exists (Raise IndexError), (pool s).
    rewrite (remove_from_pool_none _ _ Hb), set_pool_same.
    split; [reflexivity|]. split; [now right | apply incl_refl].
  - eexists (Ret tt), _. rewrite (remove_from_pool_first _ _ _ _ Hb).
    split; [reflexivity|]. split; [now left | apply incl_filter].
Qed.

Lemma for_each_remove_frame l :
  forall s, exists o p',
    for_each l remove_from_pool s = (o, set_pool p' s)
    /\ (o = Ret tt \/ o = Raise IndexError)
    /\ incl p' (pool s).
Proof.
  induction l as [|uid l IH]; intros s.
  - exists (Ret tt), (pool s). cbn. unfold ret. rewrite set_pool_same.
    split; [reflexivity|]. split; [now left | apply incl_refl].
  - destruct (remove_from_pool_frame uid s) as (o1 & p1 & Hrun & Ho & Hincl).
    cbn [for_each]. unfold bind at 1. rewrite Hrun.
    destruct Ho as [->|[-> _]].
    + destruct (IH (set_pool p1 s)) as (o & p' & Hrest & Ho & Hincl').
      exists o, p'. rewrite Hrest. split; [reflexivity|]. split; [exact Ho|].
      intros x Hx. apply Hincl. now apply Hincl'.
    + exists (Raise IndexError), p1. split; [reflexivity|]. split; [now right | exact Hincl].
Qed.

Lemma is_owner_true u o : is_owner u o = true -> exists id, u = Some id /\ o = Found id.
Proof.
  destruct u as [id|], o as [owner|]; cbn; try discriminate.
  intros He. apply String.eqb_eq in He as ->. now exists owner.
Qed.

(** What [FUN_delete_user] does for "ADMIN" on any stores: the loop either
    runs through, and then the rows go, or stops in [IndexError], and then
    no row is touched; files are only taken away. *)
Lemma delete_user_any_stores U s :
  U <> "ADMIN" ->
  current_user s = Some "ADMIN" ->
  exists p',
    incl p' (pool s)
    /\ (FUN_delete_user U s
        = (Ret (Redirect to_FUN_admin),
           set_db (delete_user_from_db U (db s)) (set_pool p' s))
        \/ FUN_delete_user U s = (Raise IndexError, set_pool p' s)).
Proof.
  intros HU Hadm. unfold FUN_delete_user. run. rewrite Hadm. cbn [is_admin].
  rewrite String.eqb_refl. apply String.eqb_neq in HU. rewrite HU.
  destruct (for_each_remove_frame
              (map (fun x => fst (fst x)) (list_images_for_user U (db s))) s)
    as (o & p' & Hloop & Ho & Hincl).
  exists p'. split; [exact Hincl|]. rewrite Hloop.
  destruct Ho as [->| ->]; [now left | now right].
Qed.

End Frames.

Section Gates.
Context `{Libs}.

(** Handler by handler: what a request does to the record store is a
    [db_step] of the identity of its session. *)
Lemma after_db_step (r : request) (s : state) :
  db_step (current_user s) (db s) (db (after r s)).
Proof.
  unfold after. destruct r as [ | | | |nid now text|nid|now files|uid|id pw| |id|id pw];
    cbn [handle].
  - apply step_same.
  - apply step_same.
  - unfold FUN_private. run. destruct (current_user s); apply step_same.
  - unfold FUN_admin. run. destruct (is_admin (current_user s)); apply step_same.
  - unfold FUN_write_note. run. destruct (current_user s) as [u|] eqn:Hu; cbn.
    + now apply step_write_note.
    + apply step_same.
  - unfold FUN_delete_note. run.
    destruct (is_owner _ _) eqn:Hg; cbn; [|apply step_same].
    apply is_owner_true in Hg as (u & Hu & Ho). now apply (step_delete_note _ _ u).
  - unfold FUN_upload_image. run. destruct files as [file|]; cbn; [|apply step_same].
    destruct (String.eqb _ ""); cbn; [apply step_same|].
    destruct (file_truthy file && allowed_file (upload_filename file)); cbn;
      [|apply step_same].
    destruct (current_user s) as [u|] eqn:Hu; cbn; [|apply step_same].
    now apply step_upload.
  - destruct (is_owner (current_user s) (match_user_id_with_image_uid uid (db s))) eqn:Hg.
    + pose proof Hg as Hg'. apply is_owner_true in Hg' as (u & Hu & Ho).
      assert (db_step (current_user s) (db s) (delete_image_from_db uid (db s))) as Hstep
        by now apply (step_delete_image _ _ u).
      destruct (blobs_of uid (pool s)) as [|b rest] eqn:Hb.
      * now rewrite (delete_image_no_blob _ _ Hg Hb).
      * now rewrite (delete_image_accepted _ _ _ _ Hg Hb).
    + rewrite (delete_image_rejected _ _ Hg). apply step_same.
  - unfold FUN_login. destruct id as [i|]; run; [|apply step_same].
    cbn [db add_log].
    destruct (Py.str_in _ _ && verify _ _ _); apply step_same.
  - apply step_same.
  - destruct (is_admin (current_user s)) eqn:Ha.
    + apply is_admin_iff in Ha.
      destruct (String.eqb_spec id "ADMIN") as [->|Hne].
      * unfold FUN_delete_user. run. rewrite Ha. apply step_same.
      * destruct (delete_user_any_stores id s Hne Ha) as (p' & _ & [-> | ->]); cbn.
        -- now apply step_delete_user.
        -- apply step_same.
    + unfold FUN_delete_user. run. rewrite Ha. apply step_same.
  - unfold FUN_add_user. run. destruct (is_admin (current_user s)) eqn:Ha; [|apply step_same].
    apply is_admin_iff in Ha. destruct id as [i|]; run; [|apply step_same].
    destruct (Py.str_in (str_upper i) (list_users (db s))) eqn:Hin; [apply step_same|].
    destruct (Py.contains " " i || Py.contains "'" i); cbn; [apply step_same|].
    apply step_add_user; [exact Ha | now apply str_in_not_In].
Qed.

(** X1. Whatever the request, the session and the stores, the record store
    changes by at most one gated operation: a row of the requester
    inserted, a note or image that resolves to the requester deleted, or,
    for "ADMIN", a user other than "ADMIN" deleted or a new id added.  This
    holds also when the handler stops in an abort or an exception. *)
Theorem every_request_is_gated (r : request) (s : state) :
  forall o s', handle r s = (o, s') -> db_step (current_user s) (db s) (db s').
Proof.
  intros o s' Hrun. pose proof (after_db_step r s) as Hstep.
  unfold after in Hstep. now rewrite Hrun in Hstep.
Qed.

End Gates.

(** ** What the gates keep *)

Section Kept.
Context `{Libs}.

Lemma db_step_anonymous d d' : db_step None d d' -> d' = d.
Proof. inversion 1; subst; try discriminate; reflexivity. Qed.

Lemma db_step_users u d d' :
  u <> Some "ADMIN" -> db_step u d d' -> users d' = users d.
Proof. intros Hu. inversion 1; subst; try reflexivity; now elim Hu. Qed.

Lemma db_step_admin_listed u d d' :
  In "ADMIN" (list_users d) -> db_step u d d' -> In "ADMIN" (list_users d').
Proof.
  intros Hin. inversion 1; subst; try exact Hin.
  - unfold list_users, delete_user_from_db in *. cbn [users].
    apply in_map_iff in Hin as (r & Hid & Hr). apply in_map_iff. exists r.
    split; [exact Hid|]. apply filter_In. split; [exact Hr|].
    rewrite Hid. apply negb_true_iff, String.eqb_neq. congruence.
  - rewrite list_users_add_user. apply in_or_app. now left.
Qed.

(** With unique keys, the row a lookup finds is the only row of its key. *)
Lemma find_unique {A} (key : A -> string) k l r :
  NoDup (map key l) ->
  find (fun x => String.eqb (key x) k) l = Some r ->
  forall x, In x l -> key x = k -> x = r.
Proof.
  induction l as [|y l IH]; cbn; [discriminate|].
  intros Hnd Hfind x Hx Hk. inversion Hnd as [|? ? Hfresh Hnd']; subst.
  destruct (String.eqb_spec (key y) (key x)) as [Heq|Hne].
  - injection Hfind as <-. destruct Hx as [Hx|Hx]; [now symmetry|].
    elim Hfresh. rewrite Heq. now apply in_map.
  - destruct Hx as [Hx|Hx]; [now subst|]. now apply IH.
Qed.

Lemma filter_filter_keep {A} (f g : A -> bool) l :
  (forall x, In x l -> f x = true -> g x = true) ->
  filter f (filter g l) = filter f l.
Proof.
  induction l as [|x l IH]; cbn; intros Himp; [reflexivity|].
  assert (filter f (filter g l) = filter f l) as IH'
    by (apply IH; intros y Hy; apply Himp; now right).
  destruct (f x) eqn:Hf.
  - rewrite (Himp x (or_introl eq_refl) Hf). cbn. now rewrite Hf, IH'.
  - destruct (g x); cbn; [rewrite Hf|]; exact IH'.
Qed.

Lemma db_step_isolation u d d' v :
  unique_ids d ->
  u <> Some "ADMIN" ->
  u <> Some v ->
  db_step u d d' ->
  notes_of v d' = notes_of v d /\ images_of v d' = images_of v d.
Proof.
  intros [Hnotes Himages] Hadm Hv.
  assert (forall id, u = Some id -> String.eqb id v = false) as Hother.
  { intros id ->. apply String.eqb_neq. congruence. }
  inversion 1; subst; unfold notes_of, images_of;
    cbn [notes images write_note_into_db delete_note_from_db image_upload_record
           delete_image_from_db];
    try (split; reflexivity); try (now elim Hadm).
  - split; [|reflexivity]. rewrite filter_app. cbn [filter note_user].
    rewrite (Hother _ eq_refl). apply app_nil_r.
  - split; [|reflexivity]. apply filter_filter_keep. intros x Hx Hown.
    apply negb_true_iff, String.eqb_neq. intros Hk.
    match goal with Hl : match_user_id_with_note_id _ _ = _ |- _ =>
      apply note_lookup_row in Hl as (r & Hfind & Ho) end.
    rewrite (find_unique note_id _ _ _ Hnotes Hfind x Hx Hk), Ho in Hown.
    now rewrite (Hother _ eq_refl) in Hown.
  - split; [reflexivity|]. rewrite filter_app. cbn [filter img_owner].
    rewrite (Hother _ eq_refl). apply app_nil_r.
  - split; [reflexivity|]. apply filter_filter_keep. intros x Hx Hown.
    apply negb_true_iff, String.eqb_neq. intros Hk.
    match goal with Hl : match_user_id_with_image_uid _ _ = _ |- _ =>
      apply image_lookup_row in Hl as (r & Hfind & Ho) end.
    rewrite (find_unique img_uid _ _ _ Himages Hfind x Hx Hk), Ho in Hown.
    now rewrite (Hother _ eq_refl) in Hown.
Qed.

Lemma serve_cons v visits s :
  serve (v :: visits) s = serve visits (after (snd v) (set_current_user (fst v) s)).
Proof. reflexivity. Qed.

(** X2. A request without session identity never changes the record store,
    whichever route it hits and however its handler ends. *)
Theorem anonymous_request_keeps_store (r : request) (s : state) :
  current_user s = None -> db (after r s) = db s.
Proof.
  intros Hu. apply db_step_anonymous. rewrite <- Hu. apply after_db_step.
Qed.

(** X3. A request of a session that is not "ADMIN" never changes the table
    of users. *)
Theorem only_admin_changes_users (r : request) (s : state) :
  current_user s <> Some "ADMIN" -> users (db (after r s)) = users (db s).
Proof.
  intros Hu. apply (db_step_users (current_user s)); [exact Hu | apply after_db_step].
Qed.

(** X4. No run of requests, under whatever identities, removes "ADMIN" from
    the users. *)
Theorem admin_stays_listed (visits : list (option string * request)) (s : state) :
  In "ADMIN" (list_users (db s)) -> In "ADMIN" (list_users (db (serve visits s))).
Proof.
  revert s. induction visits as [|v visits IH]; intros s Hin; [exact Hin|].
  rewrite serve_cons. apply IH.
  apply (db_step_admin_listed (fst v) (db s)); [exact Hin|].
  exact (after_db_step (snd v) (set_current_user (fst v) s)).
Qed.

(** X5. With unique note and image ids, a request of a session other than
    "ADMIN" leaves the notes and image rows of every other user as they
    were. *)
Theorem other_users_rows_untouched (r : request) (s : state) (v : string) :
  unique_ids (db s) ->
  current_user s <> Some "ADMIN" ->
  current_user s <> Some v ->
  notes_of v (db (after r s)) = notes_of v (db s)
  /\ images_of v (db (after r s)) = images_of v (db s).
Proof.
  intros Huniq Hadm Hv.
  apply (db_step_isolation (current_user s)); try assumption. apply after_db_step.
Qed.


End Kept.

(** ** Round trips *)

Section RoundTrips.
Context `{Libs}.

Lemma filter_all {A} (f : A -> bool) l :
  (forall x, In x l -> f x = true) -> filter f l = l.
Proof.
  induction l as [|x l IH]; cbn; intros Hall; [reflexivity|].
  rewrite (Hall x (or_introl eq_refl)). f_equal. apply IH. intros y Hy. apply Hall. now right.
Qed.

Lemma filter_none {A} (f : A -> bool) l :
  (forall x, In x l -> f x = false) -> filter f l = [].
Proof.
  induction l as [|x l IH]; cbn; intros Hall; [reflexivity|].
  rewrite (Hall x (or_introl eq_refl)). apply IH. intros y Hy. apply Hall. now right.
Qed.

Lemma set_db_same s : set_db (db s) s = s.
Proof. now destruct s. Qed.

(** A new name is written last, and removing it gives the directory back. *)
Lemma write_file_new name bytes p :
  (forall x, In x p -> name_is name x = false) ->
  write_file name bytes p = (p ++ [{| blob_name := name; blob_bytes := bytes |}])%list.
Proof.
  induction p as [|b p IH]; cbn; intros Hnew; [reflexivity|].
  rewrite (Hnew b (or_introl eq_refl)). f_equal. apply IH. intros x Hx. apply Hnew. now right.
Qed.

Lemma remove_written name bytes p :
  (forall x, In x p -> name_is name x = false) ->
  filter (fun x => negb (name_is name x)) (write_file name bytes p) = p.
Proof.
  intros Hnew. rewrite (write_file_new _ _ _ Hnew), filter_app. cbn [filter].
  unfold name_is at 2. cbn [blob_name]. rewrite String.eqb_refl. cbn [negb].
  rewrite app_nil_r. apply filter_all. intros x Hx. now rewrite (Hnew x Hx).
Qed.

Lemma no_blob_no_name uid name p :
  has_prefix uid name = true ->
  blobs_of uid p = [] ->
  forall x, In x p -> name_is name x = false.
Proof.
  intros Hp Hnone x Hx. destruct (name_is name x) eqn:Hn; [|reflexivity].
  unfold name_is in Hn. apply String.eqb_eq in Hn.
  assert (In x (blobs_of uid p)) as Hin by (apply blobs_of_In; split; [exact Hx | now rewrite Hn]).
  now rewrite Hnone in Hin.
Qed.

Lemma find_none_filter {A} (key : A -> string) k l :
  find (fun r => String.eqb (key r) k) l = None ->
  filter (fun r => negb (String.eqb (key r) k)) l = l.
Proof.
  intros Hnone. apply filter_all. intros x Hx.
  now rewrite (find_none _ _ Hnone x Hx).
Qed.

Lemma image_not_found_rows uid d :
  match_user_id_with_image_uid uid d = NotFound ->
  find (fun r => String.eqb (img_uid r) uid) (images d) = None.
Proof.
  unfold match_user_id_with_image_uid. now destruct (find _ (images d)).
Qed.

Lemma note_not_found_rows nid d :
  match_user_id_with_note_id nid d = NotFound ->
  find (fun r => String.eqb (note_id r) nid) (notes d) = None.
Proof.
  unfold match_user_id_with_note_id. now destruct (find _ (notes d)).
Qed.

(** X7. An upload under a fresh, dash-free id followed by the uploader's
    Delete Image of that id gives back the stores of before the upload,
    rows and files alike. *)
Theorem upload_then_delete_restores (now : string) (file : upload) (A : string) (s : state) :
  current_user s = Some A ->
  allowed_file (upload_filename file) = true ->
  let F := secure_filename (upload_filename file) in
  let uid := sha1_hexdigest (now ++ F) in
  Py.contains "-" uid = false ->
  match_user_id_with_image_uid uid (db s) = NotFound ->
  blobs_of uid (pool s) = [] ->
  exists s1,
    FUN_upload_image now (Some file) s = (Ret (Redirect to_FUN_private), s1)
    /\ FUN_delete_image uid s1 = (Ret (Redirect to_FUN_private), s).
Proof.
  intros Hu Hok F uid Hdash Hfresh Hnone. subst F uid.
  set (F := secure_filename (upload_filename file)) in *.
  set (uid := sha1_hexdigest (now ++ F)) in *.
  assert (has_prefix uid (uid ++ "-" ++ F) = true) as Hp
    by (apply has_prefix_eq; cbn [String.append]; now apply split1_prefix).
  eexists. split; [exact (upload_accepted now file A s Hu Hok)|].
  fold F. fold uid.
  rewrite (delete_image_accepted uid _
             {| blob_name := uid ++ "-" ++ F; blob_bytes := upload_bytes file |} []).
  - f_equal. cbn [pool db set_db set_pool image_upload_record blob_name].
    rewrite (remove_written _ _ _ (no_blob_no_name _ _ _ Hp Hnone)).
    unfold delete_image_from_db, image_upload_record. cbn [users notes images].
    rewrite filter_app. cbn [filter img_uid]. rewrite String.eqb_refl. cbn [negb].
    rewrite app_nil_r, (find_none_filter _ _ _ (image_not_found_rows _ _ Hfresh)).
    now destruct s as [cu fl [us ns im] p lg].
  - cbn [current_user db set_db set_pool]. rewrite Hu.
    unfold match_user_id_with_image_uid. cbn [images image_upload_record].
    rewrite (find_app_new _ _ _ (image_not_found_rows _ _ Hfresh)); [|apply String.eqb_refl].
    cbn [img_owner is_owner]. apply String.eqb_refl.
  - cbn [pool set_db set_pool]. now apply blobs_of_write_file.
Qed.

(** X8. Write Note under a fresh id followed by the writer's Delete Note of
    that id gives back the state of before. *)
Theorem write_then_delete_note_restores (nid now text u : string) (s : state) :
  current_user s = Some u ->
  match_user_id_with_note_id nid (db s) = NotFound ->
  exists s1,
    FUN_write_note nid now text s = (Ret (Redirect to_FUN_private), s1)
    /\ match_user_id_with_note_id nid (db s1) = Found u
    /\ FUN_delete_note nid s1 = (Ret (Redirect to_FUN_private), s).
Proof.
  intros Hu Hfresh. pose proof (note_not_found_rows _ _ Hfresh) as Hnone.
  assert (match_user_id_with_note_id nid (write_note_into_db nid now u text (db s)) = Found u)
    as Hown.
  { unfold match_user_id_with_note_id. cbn [notes write_note_into_db].
    rewrite (find_app_new _ _ _ Hnone); [reflexivity | apply String.eqb_refl]. }
  eexists. split; [|split].
  - unfold FUN_write_note. run. rewrite Hu. reflexivity.
  - exact Hown.
  - unfold FUN_delete_note. run. cbn [current_user db set_db]. rewrite Hu, Hown.
    cbn [is_owner]. rewrite String.eqb_refl. f_equal.
    unfold delete_note_from_db, write_note_into_db. cbn [users notes images db set_db].
    rewrite filter_app. cbn [filter note_id]. rewrite String.eqb_refl. cbn [negb].
    rewrite app_nil_r, (find_none_filter _ _ _ Hnone).
    now destruct s as [cu fl [us ns im] p lg].
Qed.

Lemma filter_negb_twice {A} (f : A -> bool) l :
  filter (fun x => negb (f x)) (filter (fun x => negb (f x)) l) = filter (fun x => negb (f x)) l.
Proof. apply filter_filter_keep. intros x Hx Hf. exact Hf. Qed.

Lemma delete_user_from_db_twice U d :
  delete_user_from_db U (delete_user_from_db U d) = delete_user_from_db U d.
Proof.
  unfold delete_user_from_db. cbn [users notes images].
  now rewrite (filter_negb_twice (fun r => String.eqb (user_id r) U)),
              (filter_negb_twice (fun r => String.eqb (note_user r) U)),
              (filter_negb_twice (fun r => String.eqb (img_owner r) U)).
Qed.

Lemma images_to_remove_after_delete U d :
  images_to_remove U (delete_user_from_db U d) = [].
Proof.
  rewrite images_to_remove_rows. unfold delete_user_from_db. cbn [images].
  rewrite filter_none; [reflexivity|].
  intros x Hx. apply filter_In in Hx as [_ Hx]. now apply negb_true_iff in Hx.
Qed.

(** A user without image rows: the loop has nothing to do. *)
Lemma delete_user_no_images U s :
  U <> "ADMIN" ->
  current_user s = Some "ADMIN" ->
  images_to_remove U (db s) = [] ->
  FUN_delete_user U s
  = (Ret (Redirect to_FUN_admin), set_db (delete_user_from_db U (db s)) s).
Proof.
  intros HU Hadm Hnone. unfold FUN_delete_user. run. rewrite Hadm. cbn [is_admin].
  rewrite String.eqb_refl. apply String.eqb_neq in HU. rewrite HU.
  fold (images_to_remove U (db s)). now rewrite Hnone.
Qed.

(** X9. Delete User can be repeated: after a request that returned, the
    same request returns again and changes nothing. *)
Theorem delete_user_twice (U : string) (s : state) :
  forall r s', FUN_delete_user U s = (Ret r, s') ->
               FUN_delete_user U s' = (Ret r, s').
Proof.
  intros r s' Hrun.
  destruct (is_admin (current_user s)) eqn:Ha;
    [|unfold FUN_delete_user in Hrun; revert Hrun; run; rewrite Ha; discriminate].
  destruct (String.eqb_spec U "ADMIN") as [->|HU];
    [unfold FUN_delete_user in Hrun; revert Hrun; run; rewrite Ha; discriminate|].
  apply is_admin_iff in Ha.
  destruct (delete_user_any_stores U s HU Ha) as (p' & _ & [Hok|Hbad]);
    rewrite Hrun in *; [|discriminate].
  injection Hok as -> ->.
  rewrite delete_user_no_images; [| exact HU | exact Ha |].
  - cbn [db set_db]. now rewrite delete_user_from_db_twice.
  - cbn [db set_db]. apply images_to_remove_after_delete.
Qed.

(** X10. Delete User by "ADMIN" on whatever stores either runs through,
    and then the rows of the user are gone, or stops in [IndexError] at an
    image without file, and then no row is touched, the user's included;
    either way files are only taken away. *)
Theorem delete_user_cascades_or_stops (U : string) (s : state) :
  U <> "ADMIN" ->
  current_user s = Some "ADMIN" ->
  exists o s',
    FUN_delete_user U s = (o, s')
    /\ incl (pool s') (pool s)
    /\ ((o = Ret (Redirect to_FUN_admin) /\ db s' = delete_user_from_db U (db s))
        \/ (o = Raise IndexError /\ db s' = db s)).
Proof.
  intros HU Hadm.
  destruct (delete_user_any_stores U s HU Hadm) as (p' & Hincl & [-> | ->]);
    eexists _, _; (split; [reflexivity|]); (split; [exact Hincl|]); [left | right];
    now split.
Qed.

Lemma split1_head_no_sep sep y : Py.contains sep (fst (Py.split1 sep y)) = false.
Proof.
  induction y as [|c y IH]; cbn; [reflexivity|].
  destruct (Ascii.eqb c sep) eqn:Hc; [reflexivity|].
  destruct (Py.split1 sep y) as [h t]. cbn in *. now rewrite Hc, IH.
Qed.

(** No file name has a prefix with a dash in it. *)
Lemma dash_id_has_no_blob uid p : Py.contains "-" uid = true -> blobs_of uid p = [].
Proof.
  intros Hdash. apply filter_none. intros x _.
  destruct (has_prefix uid (blob_name x)) eqn:Hp; [|reflexivity].
  apply has_prefix_eq in Hp. rewrite <- Hp, split1_head_no_sep in Hdash. discriminate.
Qed.

(** X11. When the image resolves to the requester and no file of the
    directory matches, as is the case for every id with a dash in it,
    Delete Image stops in [IndexError] with the row already deleted and the
    files as they were; a retry is answered 401. *)
Theorem delete_image_without_file (uid : string) (s : state) :
  is_owner (current_user s) (match_user_id_with_image_uid uid (db s)) = true ->
  blobs_of uid (pool s) = [] \/ Py.contains "-" uid = true ->
  exists s',
    FUN_delete_image uid s = (Raise IndexError, s')
    /\ db s' = delete_image_from_db uid (db s)
    /\ pool s' = pool s
    /\ match_user_id_with_image_uid uid (db s') = NotFound
    /\ FUN_delete_image uid s' = (Abort 401, s').
Proof.
  intros Hg Hnone.
  assert (blobs_of uid (pool s) = []) as Hb
    by (destruct Hnone as [Hb|Hdash]; [exact Hb | now apply dash_id_has_no_blob]).
  eexists. split; [exact (delete_image_no_blob _ _ Hg Hb)|].
  cbn [db pool set_db]. repeat split.
  - apply image_gone_after_delete.
  - apply delete_image_rejected. cbn [db set_db]. rewrite image_gone_after_delete.
    apply is_owner_not_found.
Qed.

End RoundTrips.

(** ** Pages *)

Section Pages.
Context `{Libs}.

(** With unique keys, a lookup by the key of a row finds that row. *)
Lemma find_own_key {A} (key : A -> string) l r :
  NoDup (map key l) -> In r l ->
  find (fun x => String.eqb (key x) (key r)) l = Some r.
Proof.
  induction l as [|y l IH]; cbn; [contradiction|].
  intros Hnd Hin. inversion Hnd as [|? ? Hfresh Hnd']; subst.
  destruct Hin as [->|Hin]; [now rewrite String.eqb_refl|].
  destruct (String.eqb_spec (key y) (key r)) as [Heq|_]; [|now apply IH].
  elim Hfresh. rewrite Heq. now apply in_map.
Qed.

Lemma enumerate_from_fst {A} (l : list A) k :
  map fst (Py.enumerate_from k l) = seq k (length l).
Proof. revert k. induction l as [|x l IH]; intros k; cbn; [reflexivity|]. now rewrite IH. Qed.

Lemma enumerate_from_snd {A} (l : list A) k : map snd (Py.enumerate_from k l) = l.
Proof. revert k. induction l as [|x l IH]; intros k; cbn; [reflexivity|]. now rewrite IH. Qed.

(** X12. The private page of a session with identity [u], on a store with
    unique ids, lists exactly the notes and the images that resolve to [u],
    each with the link of its own delete route: the links the page offers
    pass the guard of the delete handlers. *)
Theorem private_page_lists_own (u : string) (s : state) :
  current_user s = Some u ->
  unique_ids (db s) ->
  exists ns ims,
    FUN_private s = (Ret (Page_private ns ims), s)
    /\ (forall nid,
          (exists text time, In (nid, text, time, "/delete_note/" ++ nid) ns)
          <-> match_user_id_with_note_id nid (db s) = Found u)
    /\ (forall uid,
          (exists name time, In (uid, name, time, "/delete_image/" ++ uid) ims)
          <-> match_user_id_with_image_uid uid (db s) = Found u).
Proof.
  intros Hu [Hnotes Himages]. unfold FUN_private. run. rewrite Hu.
  eexists _, _. split; [reflexivity|]. split.
  - intros nid. unfold read_note_from_db. rewrite map_map. cbn [fst snd]. split.
    + intros (text & time & Hin). apply in_map_iff in Hin as (r & Heq & Hr).
      injection Heq as <- _ _. apply filter_In in Hr as [Hr Ho].
      apply String.eqb_eq in Ho. unfold match_user_id_with_note_id.
      now rewrite (find_own_key note_id _ _ Hnotes Hr), Ho.
    + intros Hown. apply note_lookup_row in Hown as (r & Hfind & Ho).
      apply find_key_In in Hfind as [Hr <-].
      exists (note_text r), (note_time r). apply in_map_iff. exists r.
      split; [reflexivity|]. apply filter_In. split; [exact Hr|]. now apply String.eqb_eq.
  - intros uid. unfold list_images_for_user. rewrite map_map. cbn [fst snd]. split.
    + intros (name & time & Hin). apply in_map_iff in Hin as (r & Heq & Hr).
      injection Heq as <- _ _. apply filter_In in Hr as [Hr Ho].
      apply String.eqb_eq in Ho. unfold match_user_id_with_image_uid.
      now rewrite (find_own_key img_uid _ _ Himages Hr), Ho.
    + intros Hown. apply image_lookup_row in Hown as (r & Hfind & Ho).
      apply find_key_In in Hfind as [Hr <-].
      exists (img_name r), (img_time r). apply in_map_iff. exists r.
      split; [reflexivity|]. apply filter_In. split; [exact Hr|]. now apply String.eqb_eq.
Qed.

(** X13. The admin page of an "ADMIN" session lists the stored user ids in
    store order, numbered from 1, each with the link "/delete_user/"
    followed by the id, and no flag raised. *)
Theorem admin_page_lists_users (s : state) :
  current_user s = Some "ADMIN" ->
  exists page,
    FUN_admin s = (Ret (Page_admin page), s)
    /\ id_to_add_is_duplicated page = false
    /\ id_to_add_is_invalid page = false
    /\ map (fun e => snd (fst e)) (users_table page) = list_users (db s)
    /\ map (fun e => fst (fst e)) (users_table page) = seq 1 (length (list_users (db s)))
    /\ map snd (users_table page) = map (String.append "/delete_user/") (list_users (db s)).
Proof.
  intros Hadm. unfold FUN_admin. run. rewrite Hadm. cbn [is_admin].
  rewrite String.eqb_refl. eexists. split; [reflexivity|].
  cbn [id_to_add_is_duplicated id_to_add_is_invalid users_table]. unfold user_table.
  rewrite !map_map. cbn [fst snd]. repeat split.
  - apply (enumerate_from_snd (list_users (db s)) 1).
  - apply (enumerate_from_fst (list_users (db s)) 1).
  - rewrite <- (enumerate_from_snd (list_users (db s)) 1) at 2. now rewrite map_map.
Qed.

End Pages.

(** ** Users and sessions *)

Section Sessions.
Context `{Libs}.

Lemma login_refused i pw s :
  ~ In (str_upper i) (list_users (db s)) ->
  current_user (snd (FUN_login (Some i) pw s)) = current_user s.
Proof.
  intros Hout. apply str_in_not_In in Hout. unfold FUN_login. run. cbn [db add_log].
  now rewrite Hout.
Qed.

(** A user that "ADMIN" has just added can log in under every
    spelling of the id that upper-cases to the same string, with the
    password given at creation; the session then carries the upper-cased
    id. *)
Theorem add_user_then_login (i i' pw : string) (s : state) :
  current_user s = Some "ADMIN" ->
  ~ In (str_upper i) (list_users (db s)) ->
  Py.contains " " i = false ->
  Py.contains "'" i = false ->
  str_upper i' = str_upper i ->
  exists s1 s2,
    FUN_add_user (Some i) pw s = (Ret (Redirect to_FUN_admin), s1)
    /\ FUN_login (Some i') pw s1 = (Ret (Redirect to_FUN_root), s2)
    /\ current_user s2 = Some (str_upper i).
Proof.
  intros Hadm Hnew Hsp Hq Hcase. pose proof Hnew as Hout. apply str_in_not_In in Hout.
  eexists _, _. split; [|split].
  - unfold FUN_add_user. run. rewrite Hadm. cbn [is_admin]. rewrite String.eqb_refl.
    rewrite Hout, Hsp, Hq. reflexivity.
  - unfold FUN_login. run. cbn [db add_log set_db]. rewrite Hcase.
    assert (Py.str_in (str_upper i) (list_users (add_user i pw (db s))) = true) as ->.
    { apply str_in_In. rewrite list_users_add_user. apply in_or_app. right. now left. }
    rewrite (verify_added _ _ _ Hnew). reflexivity.
  - reflexivity.
Qed.

(** X14. After Delete User of U returned, no Login under a spelling of U
    gets the identity, whatever the password; yet a session that still
    carries the identity U is served: its Write Note inserts a note of
    owner U.  The handlers read the identity off the session and never ask
    the store whether it still is a user. *)
Theorem deleted_user_cannot_login_but_session_writes (U : string) (s : state) :
  forall r s',
    FUN_delete_user U s = (Ret r, s') ->
    ~ In U (list_users (db s'))
    /\ (forall i pw, str_upper i = U ->
          current_user (snd (FUN_login (Some i) pw s')) = current_user s')
    /\ (forall nid now text,
          FUN_write_note nid now text (as_user U s')
          = (Ret (Redirect to_FUN_private),
             set_db (write_note_into_db nid now U text (db s')) (as_user U s'))).
Proof.
  intros r s' Hrun.
  assert (~ In U (list_users (db s'))) as Hgone.
  { destruct (is_admin (current_user s)) eqn:Ha;
      [|unfold FUN_delete_user in Hrun; revert Hrun; run; rewrite Ha; discriminate].
    destruct (String.eqb_spec U "ADMIN") as [->|HU];
      [unfold FUN_delete_user in Hrun; revert Hrun; run; rewrite Ha; discriminate|].
    apply is_admin_iff in Ha.
    destruct (delete_user_any_stores U s HU Ha) as (p' & _ & [Hok|Hbad]);
      rewrite Hrun in *; [|discriminate].
    injection Hok as -> ->. cbn [db set_db]. unfold list_users, delete_user_from_db.
    cbn [users]. intros Hin. apply in_map_iff in Hin as (x & Hid & Hx).
    apply filter_In in Hx as [_ Hkeep].
    apply negb_true_iff, String.eqb_neq in Hkeep. now apply Hkeep. }
  split; [exact Hgone|]. split.
  - intros i pw <-. now apply login_refused.
  - intros nid now text. unfold FUN_write_note. run. reflexivity.
Qed.

(** X15. A form without the id field: Login stops in [AttributeError]
    before it logs or changes anything; Add User does the same for an
    "ADMIN" session and answers 401 for every other session. *)
Theorem missing_id_field (pw : string) (s : state) :
  FUN_login None pw s = (Raise AttributeError, s)
  /\ (current_user s = Some "ADMIN" -> FUN_add_user None pw s = (Raise AttributeError, s))
  /\ (current_user s <> Some "ADMIN" -> FUN_add_user None pw s = (Abort 401, s)).
Proof.
  split; [reflexivity|]. unfold FUN_add_user. run. split.
  - now intros ->.
  - intros Hne. destruct (is_admin (current_user s)) eqn:Ha; [|reflexivity].
    now apply is_admin_iff in Ha.
Qed.

(** X16. Without session identity, every Write Note stops in [KeyError]
    with nothing written, and every upload of a file with an allowed name
    writes the file under its digest name and then stops in [KeyError]
    with no row inserted. *)
Theorem anonymous_write_raises (s : state) :
  current_user s = None ->
  (forall nid now text,
     FUN_write_note nid now text s = (Raise (KeyError "current_user"), s))
  /\ (forall now file,
        allowed_file (upload_filename file) = true ->
        let F := secure_filename (upload_filename file) in
        let uid := sha1_hexdigest (now ++ F) in
        exists s',
          FUN_upload_image now (Some file) s = (Raise (KeyError "current_user"), s')
          /\ In {| blob_name := uid ++ "-" ++ F; blob_bytes := upload_bytes file |} (pool s')
          /\ db s' = db s).
Proof.
  intros Hu. split.
  - intros nid now text. now apply write_note_anonymous.
  - intros now file Hok F uid. subst F uid. eexists.
    split; [exact (upload_anonymous now file s Hu Hok)|].
    cbn [pool db set_pool]. split; [apply write_file_In | reflexivity].
Qed.

End Sessions.

(** ** Concrete runs of the properties above *)

Lemma every_request_is_gated_witness :
  @db_step Demo.libs (Some "ALICE") Demo.store
           (delete_note_from_db "n1" Demo.store).
Proof.
  apply (@every_request_is_gated Demo.libs (Delete_note "n1") alice
           (Ret (Redirect to_FUN_private))
           (set_db (delete_note_from_db "n1" Demo.store) alice)).
  reflexivity.
Defined.

Lemma anonymous_request_keeps_store_witness :
  db (@after Demo.libs (Write_note "n3" "t6" "hello") nobody) = Demo.store
  /\ db (@after Demo.libs (Delete_user "BOB") nobody) = Demo.store.
Proof.
  split; apply (@anonymous_request_keeps_store Demo.libs); reflexivity.
Defined.

Lemma only_admin_changes_users_witness :
  users (db (@after Demo.libs (Add_user (Some "carol") "pw") bob)) = users Demo.store.
Proof.
  apply (@only_admin_changes_users Demo.libs (Add_user (Some "carol") "pw") bob).
  discriminate.
Defined.

Lemma admin_stays_listed_witness :
  In "ADMIN"
     (list_users
        (db (@serve Demo.libs
               [ (Some "ADMIN", Delete_user "ADMIN");
                 (Some "ADMIN", Delete_user "BOB");
                 (Some "BOB", Delete_user "ADMIN") ] nobody))).
Proof.
  apply (@admin_stays_listed Demo.libs). cbn. now left.
Defined.

Lemma other_users_rows_untouched_witness :
  notes_of "ALICE" (db (@after Demo.libs (Delete_note "n1") bob)) = notes_of "ALICE" Demo.store
  /\ images_of "ALICE" (db (@after Demo.libs (Delete_note "n1") bob))
     = images_of "ALICE" Demo.store.
Proof.
  apply (@other_users_rows_untouched Demo.libs (Delete_note "n1") bob "ALICE").
  - exact demo_unique_ids.
  - discriminate.
  - discriminate.
Defined.


Lemma upload_then_delete_restores_witness :
  exists s1,
    @FUN_upload_image Demo.libs "2024-05-01 10:00:00.000001"
      (Some {| upload_filename := "photo.JPG"; upload_bytes := "JFIF" |}) bob
    = (Ret (Redirect to_FUN_private), s1)
    /\ FUN_delete_image "c0ffee20240501 10:00:00.000001photo.JPG" s1
       = (Ret (Redirect to_FUN_private), bob).
Proof.
  apply (@upload_then_delete_restores Demo.libs "2024-05-01 10:00:00.000001"
           {| upload_filename := "photo.JPG"; upload_bytes := "JFIF" |} "BOB" bob);
    reflexivity.
Defined.

Lemma write_then_delete_note_restores_witness :
  exists s1,
    FUN_write_note "n3" "t6" "hello" bob = (Ret (Redirect to_FUN_private), s1)
    /\ match_user_id_with_note_id "n3" (db s1) = Found "BOB"
    /\ FUN_delete_note "n3" s1 = (Ret (Redirect to_FUN_private), bob).
Proof.
  apply (write_then_delete_note_restores "n3" "t6" "hello" "BOB" bob); reflexivity.
Defined.

Lemma delete_user_twice_witness :
  exists s',
    FUN_delete_user "ALICE" admin = (Ret (Redirect to_FUN_admin), s')
    /\ FUN_delete_user "ALICE" s' = (Ret (Redirect to_FUN_admin), s').
Proof.
  eexists. split; [reflexivity|].
  apply (delete_user_twice "ALICE" admin). reflexivity.
Defined.

Lemma delete_user_cascades_or_stops_witness :
  exists o s',
    FUN_delete_user "ALICE" (Demo.request_on [] (Some "ADMIN")) = (o, s')
    /\ incl (pool s') []
    /\ ((o = Ret (Redirect to_FUN_admin) /\ db s' = delete_user_from_db "ALICE" Demo.store)
        \/ (o = Raise IndexError /\ db s' = Demo.store)).
Proof.
  apply (delete_user_cascades_or_stops "ALICE" (Demo.request_on [] (Some "ADMIN")));
    [discriminate | reflexivity].
Defined.

Lemma delete_image_without_file_witness :
  exists s',
    FUN_delete_image "ab12" (Demo.request_on [] (Some "ALICE")) = (Raise IndexError, s')
    /\ db s' = delete_image_from_db "ab12" Demo.store
    /\ pool s' = []
    /\ match_user_id_with_image_uid "ab12" (db s') = NotFound
    /\ FUN_delete_image "ab12" s' = (Abort 401, s').
Proof.
  apply (delete_image_without_file "ab12" (Demo.request_on [] (Some "ALICE")));
    [reflexivity | now left].
Defined.

Lemma private_page_lists_own_witness :
  exists ns ims,
    FUN_private alice = (Ret (Page_private ns ims), alice)
    /\ (exists text time, In ("n1", text, time, "/delete_note/n1") ns)
    /\ ~ (exists text time, In ("n2", text, time, "/delete_note/n2") ns).
Proof.
  destruct (private_page_lists_own "ALICE" alice eq_refl demo_unique_ids)
    as (ns & ims & Hrun & Hnotes & _).
  exists ns, ims. split; [exact Hrun|]. split.
  - apply (Hnotes "n1"). reflexivity.
  - intros Hn2. apply (Hnotes "n2") in Hn2. discriminate Hn2.
Defined.

Lemma admin_page_lists_users_witness :
  exists page,
    @FUN_admin admin = (Ret (Page_admin page), admin)
    /\ map (fun e => snd (fst e)) (users_table page) = ["ADMIN"; "ALICE"; "BOB"]
    /\ map (fun e => fst (fst e)) (users_table page) = [1; 2; 3].
Proof.
  destruct (admin_page_lists_users admin eq_refl) as (page & Hrun & _ & _ & Hids & Hnum & _).
  exists page. split; [exact Hrun|]. split; [exact Hids | exact Hnum].
Defined.

Lemma add_user_then_login_witness :
  exists s1 s2,
    @FUN_add_user Demo.libs (Some "carol") "pw" admin = (Ret (Redirect to_FUN_admin), s1)
    /\ @FUN_login Demo.libs (Some "Carol") "pw" s1 = (Ret (Redirect to_FUN_root), s2)
    /\ current_user s2 = Some "CAROL".
Proof.
  apply (@add_user_then_login Demo.libs "carol" "Carol" "pw" admin);
    try reflexivity.
  cbn. intuition discriminate.
Defined.

Lemma deleted_user_cannot_login_but_session_writes_witness :
  exists s',
    FUN_delete_user "BOB" admin = (Ret (Redirect to_FUN_admin), s')
    /\ current_user (snd (@FUN_login Demo.libs (Some "bob") "builder" s')) = Some "ADMIN"
    /\ exists t, FUN_write_note "n3" "t6" "hello" (as_user "BOB" s')
                 = (Ret (Redirect to_FUN_private), t).
Proof.
  eexists. split; [reflexivity|].
  destruct (@deleted_user_cannot_login_but_session_writes Demo.libs "BOB" admin _ _ eq_refl)
    as (_ & Hlogin & Hwrite).
  split.
  - apply (Hlogin "bob" "builder"). reflexivity.
  - eexists. apply Hwrite.
Defined.

Lemma missing_id_field_witness :
  @FUN_add_user Demo.libs None "pw" admin = (Raise AttributeError, admin)
  /\ @FUN_add_user Demo.libs None "pw" bob = (Abort 401, bob).
Proof.
  split.
  - apply (@missing_id_field Demo.libs "pw" admin). reflexivity.
  - apply (@missing_id_field Demo.libs "pw" bob). discriminate.
Defined.

Lemma anonymous_write_raises_witness :
  FUN_write_note "n3" "t6" "hello" nobody = (Raise (KeyError "current_user"), nobody)
  /\ exists s',
       @FUN_upload_image Demo.libs "t6"
         (Some {| upload_filename := "cat.PNG"; upload_bytes := "PNG" |}) nobody
       = (Raise (KeyError "current_user"), s')
       /\ db s' = Demo.store.
Proof.
  destruct (@anonymous_write_raises Demo.libs nobody eq_refl) as [Hnote Hfile].
  split; [apply Hnote|].
  destruct (Hfile "t6" {| upload_filename := "cat.PNG"; upload_bytes := "PNG" |} eq_refl)
    as (s' & Hrun & _ & Hdb).
  exists s'. split; [exact Hrun | exact Hdb].
Defined.

(** ** The stores stay consistent *)

Section Consistency.
Context `{Libs}.

Lemma unique_key {A} (key : A -> string) l x y :
  NoDup (map key l) -> In x l -> In y l -> key x = key y -> x = y.
Proof.
  intros Hnd Hx Hy Hk.
  pose proof (find_own_key key l x Hnd Hx) as Hfx.
  symmetry. exact (find_unique key (key x) l x Hnd Hfx y Hy (eq_sym Hk)).
Qed.

Lemma NoDup_map_app_new {A} (key : A -> string) l x :
  NoDup (map key l) ->
  find (fun r => String.eqb (key r) (key x)) l = None ->
  NoDup (map key (l ++ [x])).
Proof.
  intros Hnd Hnone. rewrite map_app. cbn [map].
  apply NoDup_app; [exact Hnd | repeat constructor; intros [] |].
  intros k Hk [<-|[]]. apply in_map_iff in Hk as (r & Hr & Hin).
  pose proof (find_none _ _ Hnone r Hin) as Hne. cbn in Hne.
  apply String.eqb_neq in Hne. now apply Hne.
Qed.

Lemma one_blob_each_same s t :
  db t = db s -> pool t = pool s -> one_blob_each s -> one_blob_each t.
Proof. unfold one_blob_each. now intros -> ->. Qed.

(** Deleting one file by name leaves the files of every other id. *)
Lemma blobs_of_remove_other uid uid' b p :
  uid' <> uid ->
  has_prefix uid (blob_name b) = true ->
  blobs_of uid' (filter (fun x => negb (name_is (blob_name b) x)) p) = blobs_of uid' p.
Proof.
  intros Hne Hb. unfold blobs_of. induction p as [|x p IH]; cbn; [reflexivity|].
  destruct (name_is (blob_name b) x) eqn:Hn; cbn.
  - rewrite IH. destruct (has_prefix uid' (blob_name x)) eqn:Hx; [|reflexivity].
    rewrite (name_is_prefix uid' _ _ Hn) in Hx.
    elim Hne. exact (has_prefix_functional _ _ _ Hx Hb).
  - now rewrite IH.
Qed.

(** Writing a file leaves the files of every id that is not its prefix. *)
Lemma blobs_of_write_other uid' name bytes p :
  has_prefix uid' name = false ->
  blobs_of uid' (write_file name bytes p) = blobs_of uid' p.
Proof.
  intros Hp. unfold blobs_of. induction p as [|x p IH]; cbn.
  - now rewrite Hp.
  - destruct (name_is name x) eqn:Hn; cbn.
    + rewrite Hp. unfold name_is in Hn. apply String.eqb_eq in Hn. now rewrite Hn, Hp.
    + now rewrite IH.
Qed.

(** X17. Delete Image of one id, however it ends, leaves the files of every
    other id in the upload directory as they were. *)
Theorem delete_image_keeps_other_files (uid uid' : string) (s : state) :
  uid' <> uid ->
  blobs_of uid' (pool (snd (FUN_delete_image uid s))) = blobs_of uid' (pool s).
Proof.
  intros Hne.
  destruct (is_owner (current_user s) (match_user_id_with_image_uid uid (db s))) eqn:Hg.
  - destruct (blobs_of uid (pool s)) as [|b rest] eqn:Hb.
    + now rewrite (delete_image_no_blob _ _ Hg Hb).
    + rewrite (delete_image_accepted _ _ _ _ Hg Hb). cbn [snd pool set_pool set_db].
      apply (blobs_of_remove_other uid); [exact Hne|].
      assert (In b (blobs_of uid (pool s))) as Hin by (rewrite Hb; now left).
      now apply blobs_of_In in Hin.
  - now rewrite (delete_image_rejected _ _ Hg).
Qed.


(** The request left the tables and the directory as they were. *)
Ltac unchanged Huniq Hblobs s :=
  split; [exact Huniq
         | apply (one_blob_each_same s); [reflexivity | reflexivity | exact Hblobs]].

(** X19. Unique ids and one file per image row are kept by every request
    that brings fresh ids, whatever the session and however the handler
    ends. *)
Theorem consistency_is_kept (r : request) (s : state) :
  unique_ids (db s) ->
  one_blob_each s ->
  fresh r s ->
  unique_ids (db (after r s)) /\ one_blob_each (after r s).
Proof.
  intros Huniq Hblobs Hfresh. pose proof Huniq as [Hnotes Himages].
  unfold after. destruct r as [ | | | |nid now text|nid|now files|uid|id pw| |id|id pw];
    cbn [handle].
  - unchanged Huniq Hblobs s.
  - unchanged Huniq Hblobs s.
  - unfold FUN_private. run. destruct (current_user s); unchanged Huniq Hblobs s.
  - unfold FUN_admin. run. destruct (is_admin (current_user s)); unchanged Huniq Hblobs s.
  - unfold FUN_write_note. run. destruct (current_user s) as [u|]; cbn; [|unchanged Huniq Hblobs s].
    split; [split|]; cbn [db set_db notes images write_note_into_db].
    + apply (NoDup_map_app_new note_id); [exact Hnotes|]. cbn [note_id].
      now apply note_not_found_rows.
    + exact Himages.
    + exact Hblobs.
  - unfold FUN_delete_note. run. destruct (is_owner _ _); cbn; [|unchanged Huniq Hblobs s].
    split; [split|]; cbn [db set_db notes images delete_note_from_db].
    + now apply NoDup_map_filter.
    + exact Himages.
    + exact Hblobs.
  - unfold FUN_upload_image. run. destruct files as [file|]; cbn; [|unchanged Huniq Hblobs s].
    destruct (String.eqb _ ""); cbn; [unchanged Huniq Hblobs s|].
    destruct (file_truthy file && allowed_file (upload_filename file)); cbn;
      [|unchanged Huniq Hblobs s].
    cbn [fresh] in Hfresh. destruct Hfresh as (Hdash & Hnew & Hnone).
    set (F := secure_filename (upload_filename file)) in *.
    set (id := sha1_hexdigest (now ++ F)) in *.
    assert (has_prefix id (id ++ "-" ++ F) = true) as Hp
      by (apply has_prefix_eq; cbn [String.append]; now apply split1_prefix).
    assert (forall r, In r (images (db s)) ->
              exists b, blobs_of (img_uid r)
                          (write_file (id ++ "-" ++ F) (upload_bytes file) (pool s)) = [b])
      as Hold.
    { intros r Hr. rewrite blobs_of_write_other; [now apply Hblobs|].
      destruct (has_prefix (img_uid r) (id ++ "-" ++ F)) eqn:Hpr; [|reflexivity].
      pose proof (has_prefix_functional _ _ _ Hpr Hp) as Heq.
      pose proof (find_none _ _ (image_not_found_rows _ _ Hnew) r Hr) as Hne.
      cbn in Hne. now rewrite Heq, String.eqb_refl in Hne. }
    destruct (current_user s) as [u|]; cbn.
    + split; [split|]; cbn [db set_db set_pool notes images image_upload_record].
      * exact Hnotes.
      * apply (NoDup_map_app_new img_uid); [exact Himages|]. cbn [img_uid].
        now apply image_not_found_rows.
      * intros r Hr. cbn [db pool set_db set_pool images image_upload_record] in *.
        apply in_app_or in Hr as [Hr|[<-|[]]]; [now apply Hold|].
        cbn [img_uid]. eexists. now apply blobs_of_write_file.
    + split; [exact Huniq|]. intros r Hr. now apply Hold.
  - destruct (is_owner (current_user s) (match_user_id_with_image_uid uid (db s))) eqn:Hg.
    + pose proof Hg as Hg'. apply is_owner_true in Hg' as (u & _ & Ho).
      apply image_lookup_row in Ho as (r0 & Hfind & _).
      apply find_key_In in Hfind as [Hr0 Hk0].
      destruct (Hblobs r0 Hr0) as [b Hb]. rewrite Hk0 in Hb.
      rewrite (delete_image_accepted _ _ _ _ Hg Hb).
      split; [split|]; cbn [snd db pool set_db set_pool notes images delete_image_from_db].
      * exact Hnotes.
      * now apply NoDup_map_filter.
      * intros r Hr. cbn [snd db pool set_db set_pool images delete_image_from_db] in *.
        apply filter_In in Hr as [Hr Hne]. apply negb_true_iff, String.eqb_neq in Hne.
        rewrite (blobs_of_remove_other uid); [now apply Hblobs | exact Hne |].
        assert (In b (blobs_of uid (pool s))) as Hin by (rewrite Hb; now left).
        now apply blobs_of_In in Hin.
    + rewrite (delete_image_rejected _ _ Hg). unchanged Huniq Hblobs s.
  - unfold FUN_login. destruct id as [i|]; run; [|unchanged Huniq Hblobs s]. cbn [db add_log].
    destruct (Py.str_in _ _ && verify _ _ _); unchanged Huniq Hblobs s.
  - unchanged Huniq Hblobs s.
  - destruct (is_admin (current_user s)) eqn:Ha;
      [|unfold FUN_delete_user; run; rewrite Ha; unchanged Huniq Hblobs s].
    destruct (String.eqb_spec id "ADMIN") as [->|HU];
      [unfold FUN_delete_user; run; rewrite Ha; unchanged Huniq Hblobs s|].
    apply is_admin_iff in Ha. rewrite (delete_user_runs id s HU Ha Huniq Hblobs).
    split; [split|]; cbn [snd db pool set_db set_pool notes images delete_user_from_db].
    + now apply NoDup_map_filter.
    + now apply NoDup_map_filter.
    + intros r Hr. cbn [snd db pool set_db set_pool images delete_user_from_db] in *.
      apply filter_In in Hr as [Hr Hne]. apply negb_true_iff, String.eqb_neq in Hne.
      rewrite blobs_of_purge_other; [now apply Hblobs|].
      intros Hin. apply images_to_remove_In in Hin as (r' & Hr' & Ho & Hk).
      apply Hne. now rewrite <- (unique_key img_uid _ _ _ Himages Hr' Hr Hk).
  - unfold FUN_add_user. run. destruct (is_admin (current_user s)); [|unchanged Huniq Hblobs s].
    destruct id as [i|]; run; [|unchanged Huniq Hblobs s].
    destruct (Py.str_in _ _); [unchanged Huniq Hblobs s|].
    destruct (Py.contains " " i || Py.contains "'" i); [unchanged Huniq Hblobs s|].
    split; [split; [exact Hnotes | exact Himages]|]. intros r Hr. now apply Hblobs.
Qed.

End Consistency.

Lemma delete_image_keeps_other_files_witness :
  blobs_of "cd34" (pool (snd (FUN_delete_image "ab12" alice)))
  = [ {| blob_name := "cd34-dog.gif"; blob_bytes := "d" |} ].
Proof.
  rewrite (delete_image_keeps_other_files "ab12" "cd34" alice); [reflexivity | discriminate].
Defined.


Lemma consistency_is_kept_witness :
  unique_ids
    (db (@after Demo.libs
           (Upload_image "2024-05-01 10:00:00.000001"
              (Some {| upload_filename := "photo.JPG"; upload_bytes := "JFIF" |})) bob))
  /\ one_blob_each
       (@after Demo.libs
          (Upload_image "2024-05-01 10:00:00.000001"
             (Some {| upload_filename := "photo.JPG"; upload_bytes := "JFIF" |})) bob).
Proof.
  apply (@consistency_is_kept Demo.libs).
  - exact demo_unique_ids.
  - exact (demo_one_blob_each _).
  - repeat split.
Defined.
